(** * snomtools: drift correction by template matching

    A shallow embedding of [snomtools/evaluation/driftcorrection.py]
    (class [Drift]) and the properties of its matching pipeline.

    The module is Python 2 code (the package prints with the [print]
    statement and this file has no [from __future__ import division]), so
    [/] between integers is floor division.

    Layout:
    - [Py]: Python values, exceptions and the exception monad;
    - [FloatOps]: the arithmetic of numpy's float scalars, as an interface,
      with a symbolic instance used to run the code on concrete inputs;
    - [Np]: numpy arrays as a shape and a row-major buffer, and their
      indexing (negative indices wrap, out of range raises);
    - [Cv2]: the interface of the OpenCV binding, with a reference
      instance following the documented formulas;
    - the [Drift] methods, in source order;
    - a store-passing version of the matching routines, which makes the
      reads and allocations of the code explicit, and what [eval] may do
      to the arrays. *)

From Stdlib Require Import ZArith QArith Qround.
From stdpp Require Import base option list strings gmap.

Local Open Scope Z_scope.

(** ** Python values, exceptions, and the exception monad *)

Module Py.

(** The exception classes that occur on the paths modelled here.  The last
    three are the error classes of the design document's taxonomy; nothing
    in the module, numpy or OpenCV constructs them. *)
Inductive exn : Set :=
| NameError | SyntaxError | AttributeError | TypeError | IndexError
| ValueError | AssertionError
| CvError             (* cv2.error, raised by a failed CV_Assert *)
| ShapeError | ConfigurationError | DomainError.

Inductive result (A : Type) : Type :=
| Ok (a : A)
| Raise (e : exn).
Global Arguments Ok {A} a.
Global Arguments Raise {A} e.

Definition bind {A B} (m : result A) (k : A -> result B) : result B :=
  match m with
  | Ok a => k a
  | Raise e => Raise e
  end.

Definition is_ok {A} (m : result A) : bool :=
  match m with Ok _ => true | Raise _ => false end.

(** The values an argument such as [stackAxisID] or the outcome of
    [eval(method)] can take in the calls considered. *)
Inductive value : Set :=
| PNone
| PInt (z : Z)
| PStr (s : string).

(** [t[i]] on a sequence of length [n], for an integer [i]: the position
    read, or IndexError. *)
Definition norm_index (n i : Z) : result Z :=
  if bool_decide (0 <= i < n) then Ok i
  else if bool_decide (- n <= i < 0) then Ok (i + n)
  else Raise IndexError.

(** [list.insert(k, _)] on a list of length [n]: the position at which the
    new element ends up (negative [k] counts from the end, and positions
    are clamped to the list). *)
Definition insert_pos (n k : Z) : Z :=
  if bool_decide (k < 0) then Z.max 0 (k + n) else Z.min k n.

End Py.
Export Py.

Declare Scope py_scope.
Delimit Scope py_scope with py.
Notation "'let!' x := m 'in' k" := (Py.bind m (fun x => k))
  (at level 10, x name, m at level 100, k at level 200) : py_scope.
Notation "'let!' ' p := m 'in' k" := (Py.bind m (fun x => match x with p => k end))
  (at level 10, p pattern, m at level 100, k at level 200) : py_scope.
Local Open Scope py_scope.

(** ** Float scalars

    The pixel data and the correlation scores are numpy floats.  The code
    uses them through [+ - * /], [np.log] and comparisons (inside OpenCV);
    none of these raises: with numpy's default error state a division by
    zero or the logarithm of a non-positive number gives inf or nan and a
    warning.  The interface therefore has total operations. *)

Class FloatOps (F : Type) := {
  of_int : Z -> F;
  f32 : F -> F;           (* np.float32(v): the cast of one element *)
  fadd : F -> F -> F;
  fsub : F -> F -> F;
  fmul : F -> F -> F;
  fdiv : F -> F -> F;
  fsqrt : F -> F;
  flog : F -> F;
  fltb : F -> F -> bool
}.

(** What the extremum search needs of [<]: it is a strict order.  IEEE
    comparison satisfies both laws, nan included. *)
Class FloatOrder (F : Type) `{FloatOps F} := {
  fltb_irrefl : forall a : F, fltb a a = false;
  fltb_trans : forall a b c : F, fltb a b = true -> fltb b c = true -> fltb a c = true
}.

(** *** A symbolic instance

    A value is the expression that computed it, over integer literals.
    float32 holds every integer from -2^24 to 2^24, and its [+ - *] are
    exact as long as the result stays in that range: there an expression
    has an exact integer value.  Beyond the range, and through [/], [sqrt]
    or [log], it has none here, and comparisons with it are false, as
    comparisons with nan are.  The cast to float32 rounds an integer
    literal outside the range to the nearest float32, ties to the even
    mantissa (integers beyond the largest float32 are not modelled). *)

Inductive sym : Set :=
| SLit (z : Z)
| SAdd (a b : sym)
| SSub (a b : sym)
| SMul (a b : sym)
| SDiv (a b : sym)
| SSqrt (a : sym)
| SLog (a : sym).

Definition f32_exact_max : Z := 16777216.

Definition in_f32 (z : Z) : option Z :=
  if bool_decide (Z.abs z <= f32_exact_max) then Some z else None.

Fixpoint exact (t : sym) : option Z :=
  match t with
  | SLit z => Some z
  | SAdd a b => x ← exact a; y ← exact b; in_f32 (x + y)
  | SSub a b => x ← exact a; y ← exact b; in_f32 (x - y)
  | SMul a b => x ← exact a; y ← exact b; in_f32 (x * y)
  | SDiv _ _ | SSqrt _ | SLog _ => None
  end.

(** [np.float32] on an integer: 24 bits of mantissa. *)
Definition round_f32 (z : Z) : Z :=
  if bool_decide (Z.abs z <= f32_exact_max) then z
  else
    let e := Z.log2 (Z.abs z) - 23 in
    let q := Z.abs z `div` 2 ^ e in
    let r := Z.abs z `mod` 2 ^ e in
    let q' := if bool_decide (2 * r < 2 ^ e) then q
              else if bool_decide (2 ^ e < 2 * r) then q + 1
              else if Z.even q then q else q + 1 in
    Z.sgn z * (q' * 2 ^ e).

Definition sym_f32 (t : sym) : sym :=
  match t with
  | SLit z => SLit (round_f32 z)
  | _ => t
  end.

Definition sym_ltb (a b : sym) : bool :=
  match exact a, exact b with
  | Some x, Some y => bool_decide (x < y)
  | _, _ => false
  end.

#[global] Instance sym_ops : FloatOps sym := {|
  of_int := SLit;
  f32 := sym_f32;
  fadd := SAdd; fsub := SSub; fmul := SMul; fdiv := SDiv;
  fsqrt := SSqrt; flog := SLog;
  fltb := sym_ltb
|}.

(** ** numpy arrays

    An array is its shape and its buffer in row-major (C) order, as numpy
    holds it.  The stack is a 3-D array, a slice, the template and the
    correlation surface are 2-D arrays. *)

Record ndarray (F : Type) : Type := NdArray {
  shape : list Z;
  buf : list F
}.
Arguments NdArray {F} shape buf.
Arguments shape {F} _.
Arguments buf {F} _.

Module Np.
Section Arrays.
Context {F : Type}.

Definition size (sh : list Z) : Z := foldr Z.mul 1 sh.

(** The invariant of every numpy array. *)
Definition wf (a : ndarray F) : Prop :=
  Forall (fun n => 0 <= n) (shape a) /\
  Z.of_nat (length (buf a)) = size (shape a).

(** [np.float32(a)] and the like: a new array, cast element by element. *)
Definition astype (f : F -> F) (a : ndarray F) : ndarray F :=
  NdArray (shape a) (f <$> buf a).

(** The cell [(i, j)] of a 2-D array, for [i] along the first axis and [j]
    along the second, both in range. *)
Definition cell (a : ndarray F) (i j : Z) : option F :=
  match shape a with
  | [n0; n1] =>
      if bool_decide (0 <= i < n0 /\ 0 <= j < n1)
      then buf a !! Z.to_nat (i * n1 + j)
      else None
  | _ => None
  end.

(** [a[i, j]] on a 2-D array: each index is normalised against its axis. *)
Definition getitem2 (a : ndarray F) (i j : Z) : result F :=
  match shape a with
  | [n0; n1] =>
      let! i' := norm_index n0 i in
      let! j' := norm_index n1 j in
      match buf a !! Z.to_nat (i' * n1 + j') with
      | Some v => Ok v
      | None => Raise IndexError
      end
  | _ => Raise IndexError
  end.

(** The positions [(r, c)] of an [m0 x m1] array, in row-major order. *)
Definition positions (m0 m1 : Z) : list (Z * Z) :=
  r ← seqZ 0 m0; c ← seqZ 0 m1; [(r, c)].

(** A new [m0 x m1] array whose cell [(r, c)] is [buf a [idx r c]]. *)
Definition gather (a : ndarray F) (m0 m1 : Z) (idx : Z -> Z -> Z)
  : result (ndarray F) :=
  match mapM (fun rc : Z * Z => buf a !! Z.to_nat (idx rc.1 rc.2))
             (positions m0 m1) with
  | Some b => Ok (NdArray [m0; m1] b)
  | None => Raise IndexError
  end.

(** [a[i, :, :]], [a[:, i, :]] and [a[:, :, i]] on a 3-D array: the index
    [i] sits at position [p] of the subscript tuple. *)
Definition take_axis (a : ndarray F) (p i : Z) : result (ndarray F) :=
  match shape a with
  | [n0; n1; n2] =>
      if bool_decide (p = 0) then
        let! i' := norm_index n0 i in
        gather a n1 n2 (fun r c => (i' * n1 + r) * n2 + c)
      else if bool_decide (p = 1) then
        let! i' := norm_index n1 i in
        gather a n0 n2 (fun r c => (r * n1 + i') * n2 + c)
      else if bool_decide (p = 2) then
        let! i' := norm_index n2 i in
        gather a n0 n1 (fun r c => (r * n1 + c) * n2 + i')
      else Raise IndexError
  | _ => Raise IndexError
  end.

(** [t[k]] on the shape tuple: an integer index, or TypeError. *)
Definition tuple_getitem (t : list Z) (k : value) : result Z :=
  match k with
  | PInt i =>
      let! i' := norm_index (Z.of_nat (length t)) i in
      match t !! Z.to_nat i' with
      | Some n => Ok n
      | None => Raise IndexError
      end
  | PNone | PStr _ => Raise TypeError
  end.

End Arrays.
End Np.
Export Np.

(** ** The OpenCV binding

    [cv2] is an external library; the module uses two of its functions and
    six of its constants. *)

Module Cv.
Definition TM_SQDIFF : Z := 0.
Definition TM_SQDIFF_NORMED : Z := 1.
Definition TM_CCORR : Z := 2.
Definition TM_CCORR_NORMED : Z := 3.
Definition TM_CCOEFF : Z := 4.
Definition TM_CCOEFF_NORMED : Z := 5.
End Cv.

(** [cv.matchTemplate(image, templ, method)] gives the correlation surface;
    [cv.minMaxLoc(src)] gives [(min_val, max_val, min_loc, max_loc)], where a
    location is an OpenCV point [(x, y)]: [x] is the column, [y] is the
    row. *)
Class Cv2 (F : Type) := {
  matchTemplate : ndarray F -> ndarray F -> Z -> result (ndarray F);
  minMaxLoc : ndarray F -> result (F * F * (Z * Z) * (Z * Z))
}.

(** The contract of the two functions, as far as the module relies on it:
    a method code outside the six is rejected (the binding converts the
    Python integer to a C int first; what it does with an integer that does
    not fit is left open); the surface is a well-formed
    2-D array with at least one cell; on such an array [minMaxLoc] answers,
    and the two locations are positions of a least and of a greatest
    score. *)
Class Cv2Spec (F : Type) `{FloatOps F} `{Cv2 F} : Prop := {
  matchTemplate_method : forall a t m,
    ~ (Cv.TM_SQDIFF <= m <= Cv.TM_CCOEFF_NORMED) ->
    - 2147483648 <= m <= 2147483647 ->
    matchTemplate a t m = Raise CvError;
  matchTemplate_wf : forall a t m S,
    matchTemplate a t m = Ok S ->
    wf S /\ exists n0 n1, shape S = [n0; n1] /\ 1 <= n0 /\ 1 <= n1;
  minMaxLoc_total : forall S n0 n1,
    wf S -> shape S = [n0; n1] -> 1 <= n0 -> 1 <= n1 ->
    exists r, minMaxLoc S = Ok r;
  minMaxLoc_min : forall S mn mx lmin lmax,
    wf S -> minMaxLoc S = Ok (mn, mx, lmin, lmax) ->
    cell S lmin.2 lmin.1 = Some mn /\
    forall i j v, cell S i j = Some v -> fltb v mn = false;
  minMaxLoc_max : forall S mn mx lmin lmax,
    wf S -> minMaxLoc S = Ok (mn, mx, lmin, lmax) ->
    cell S lmax.2 lmax.1 = Some mx /\
    forall i j v, cell S i j = Some v -> fltb mx v = false
}.

(** *** Reference instance

    The formulas of the OpenCV documentation, over any float arithmetic.
    [tv] lists the template, [iv] the image window under it. *)
Module CvRef.
Section Ref.
Context {F : Type} {FO : FloatOps F}.

Definition fsum (l : list F) : F := foldl fadd (of_int 0) l.
Definition mean (l : list F) : F := fdiv (fsum l) (of_int (Z.of_nat (length l))).
Definition centre (l : list F) : list F := (fun v => fsub v (mean l)) <$> l.
Definition sqdiff (tv iv : list F) : F :=
  fsum (zip_with (fun t i => fmul (fsub t i) (fsub t i)) tv iv).
Definition ccorr (tv iv : list F) : F := fsum (zip_with fmul tv iv).
Definition norm (tv iv : list F) : F :=
  fsqrt (fmul (ccorr tv tv) (ccorr iv iv)).

Definition score (method : Z) (tv iv : list F) : F :=
  if bool_decide (method = Cv.TM_SQDIFF) then sqdiff tv iv
  else if bool_decide (method = Cv.TM_SQDIFF_NORMED) then
    fdiv (sqdiff tv iv) (norm tv iv)
  else if bool_decide (method = Cv.TM_CCORR) then ccorr tv iv
  else if bool_decide (method = Cv.TM_CCORR_NORMED) then
    fdiv (ccorr tv iv) (norm tv iv)
  else if bool_decide (method = Cv.TM_CCOEFF) then
    ccorr (centre tv) (centre iv)
  else
    fdiv (ccorr (centre tv) (centre iv)) (norm (centre tv) (centre iv)).

(** The [h x w] window of [img] whose top-left corner is row [r], column
    [c], listed in row-major order. *)
Definition window (img : ndarray F) (r c h w : Z) : list F :=
  (fun dc : Z * Z => default (of_int 0) (cell img (r + dc.1) (c + dc.2)))
    <$> positions h w.

(** [matchTemplate]: the method is one of the six codes; two 2-D arrays;
    when the image is smaller than the template along an axis the two
    are exchanged, which needs the image to be no larger along the other
    axis; the surface has [(H - h + 1) x (W - w + 1)] cells. *)
Definition matchTemplate_ref (image templ : ndarray F) (method : Z)
  : result (ndarray F) :=
  if bool_decide (Cv.TM_SQDIFF <= method <= Cv.TM_CCOEFF_NORMED) then
    match shape image, shape templ with
    | [H; W], [h; w] =>
        let needswap := bool_decide (H < h \/ W < w) in
        if needswap && negb (bool_decide (H <= h /\ W <= w))
        then Raise CvError
        else
          let '(img, tpl) := if needswap then (templ, image) else (image, templ) in
          let '(H', W', h', w') := if needswap then (h, w, H, W) else (H, W, h, w) in
          if bool_decide (1 <= h' /\ 1 <= w') then
            Ok (NdArray [H' - h' + 1; W' - w' + 1]
                  ((fun rc : Z * Z =>
                      score method (buf tpl) (window img rc.1 rc.2 h' w'))
                     <$> positions (H' - h' + 1) (W' - w' + 1)))
          else Raise CvError
    | _, _ => Raise CvError
    end
  else Raise CvError.

(** [minMaxLoc]: one pass in row-major order with strict comparisons, so
    the first of several equal extrema is the one reported. *)
Definition mm_step (n1 : Z) (acc : F * F * (Z * Z) * (Z * Z)) (k : nat) (v : F)
  : F * F * (Z * Z) * (Z * Z) :=
  let '(mn, mx, lmin, lmax) := acc in
  let l := (Z.of_nat k `mod` n1, Z.of_nat k `div` n1) in
  (if fltb v mn then v else mn,
   if fltb mx v then v else mx,
   if fltb v mn then l else lmin,
   if fltb mx v then l else lmax).

Fixpoint mm_scan (n1 : Z) (acc : F * F * (Z * Z) * (Z * Z)) (k : nat) (l : list F)
  : F * F * (Z * Z) * (Z * Z) :=
  match l with
  | [] => acc
  | v :: l' => mm_scan n1 (mm_step n1 acc k v) (S k) l'
  end.

Definition minMaxLoc_ref (src : ndarray F) : result (F * F * (Z * Z) * (Z * Z)) :=
  match shape src, buf src with
  | [n0; n1], v :: _ => Ok (mm_scan n1 (v, v, (0, 0), (0, 0)) 0 (buf src))
  | _, _ => Raise CvError
  end.


(** The state of the scan after the first [k] cells of the buffer [b]:
    the minimum and maximum are cells of [b], at the recorded locations,
    and no cell seen so far is beyond them. *)
Definition mm_inv (n1 : Z) (b : list F) (k : nat)
    (acc : F * F * (Z * Z) * (Z * Z)) : Prop :=
  let '(mn, mx, lmin, lmax) := acc in
  (exists km : nat, b !! km = Some mn /\
     lmin = (Z.of_nat km `mod` n1, Z.of_nat km `div` n1)) /\
  (exists km : nat, b !! km = Some mx /\
     lmax = (Z.of_nat km `mod` n1, Z.of_nat km `div` n1)) /\
  (forall (j : nat) v, (j < k)%nat -> b !! j = Some v -> fltb v mn = false) /\
  (forall (j : nat) v, (j < k)%nat -> b !! j = Some v -> fltb mx v = false).

(** The scan for a buffer in which the cell [k0], of score [v0], is the first
    least one: up to [k0] the minimum is some cell before it, from [k0] on
    it is that cell. *)
Definition mm_first_inv (n1 : Z) (b : list F) (k0 : nat) (v0 : F) (k : nat)
    (acc : F * F * (Z * Z) * (Z * Z)) : Prop :=
  let '(mn, mx, lmin, lmax) := acc in
  ((k <= k0)%nat ->
   exists j : nat, (j < k \/ j = 0)%nat /\ (j <= k0)%nat /\ b !! j = Some mn /\
     lmin = (Z.of_nat j `mod` n1, Z.of_nat j `div` n1)) /\
  ((k0 < k)%nat ->
   mn = v0 /\ lmin = (Z.of_nat k0 `mod` n1, Z.of_nat k0 `div` n1)).

End Ref.
End CvRef.

#[global] Instance cv2_ref {F : Type} `{FloatOps F} : Cv2 F := {|
  matchTemplate := CvRef.matchTemplate_ref;
  minMaxLoc := CvRef.minMaxLoc_ref
|}.

(** ** Python's [eval]

    [template_matching] turns the method string into a value with [eval].
    What a string evaluates to depends on the whole environment of the
    call; the interface leaves it open and fixes, in [PyEvalSpec], only the
    six names the module documents. *)
Class PyEval := { py_eval : string -> result value }.

Definition method_names : list (string * Z) :=
  [ ("cv.TM_SQDIFF"%string, Cv.TM_SQDIFF);
    ("cv.TM_SQDIFF_NORMED"%string, Cv.TM_SQDIFF_NORMED);
    ("cv.TM_CCORR"%string, Cv.TM_CCORR);
    ("cv.TM_CCORR_NORMED"%string, Cv.TM_CCORR_NORMED);
    ("cv.TM_CCOEFF"%string, Cv.TM_CCOEFF);
    ("cv.TM_CCOEFF_NORMED"%string, Cv.TM_CCOEFF_NORMED) ].

Class PyEvalSpec `{PyEval} : Prop := {
  py_eval_names : forall s z, (s, z) ∈ method_names -> py_eval s = Ok (PInt z)
}.

(** A small evaluator: the six names, and decimal integer literals.  Of the
    other strings, one that starts with [cv.] is answered with
    AttributeError (an attribute the module does not have) and the rest
    with NameError (an identifier that is not bound). *)
Module EvalRef.

Definition digit (c : Ascii.ascii) : option Z :=
  let n := Z.of_nat (Ascii.nat_of_ascii c) in
  if bool_decide (48 <= n <= 57) then Some (n - 48) else None.

Fixpoint digits (s : string) (acc : Z) : option Z :=
  match s with
  | EmptyString => Some acc
  | String c s' => d ← digit c; digits s' (10 * acc + d)
  end.

(** A decimal literal: ["0"], or digits that do not start with [0]. *)
Definition literal (s : string) : option Z :=
  if bool_decide (s = EmptyString) then None
  else if bool_decide (s = "0"%string) then Some 0
  else if String.prefix "0" s then None
  else digits s 0.

Definition eval_ref (s : string) : result value :=
  match list_find (fun p : string * Z => p.1 = s) method_names with
  | Some (_, (_, z)) => Ok (PInt z)
  | None =>
      match literal s with
      | Some z => Ok (PInt z)
      | None =>
          if String.prefix "cv." s then Raise AttributeError
          else Raise NameError
      end
  end.

End EvalRef.

#[global] Instance py_eval_ref : PyEval := {| py_eval := EvalRef.eval_ref |}.

(** ** The dataset container

    [snomtools.data.datasets] (classes [DataSet], [ROI] and [DataArray]) is
    used through the methods below.  [get_datafield] answers a [DataArray];
    of it the module reads [.shape] and [.data], which is the [ndarray]
    here. *)
Class DataSetOps (DS F : Type) := {
  ds_truth : DS -> bool;              (* bool(obj), as tested by [if obj:] *)
  ds_is_DataSet : DS -> bool;         (* isinstance(obj, DataSet) *)
  ds_is_ROI : DS -> bool;             (* isinstance(obj, ROI) *)
  ds_shape : DS -> list Z;            (* obj.shape *)
  get_axis_index : DS -> value -> result Z;
  project_nd : DS -> list Z -> result DS;
  get_datafield : DS -> Z -> result (ndarray F);
  ROI : DS -> gmap Z (Z * Z) -> bool -> result DS
}.

(** ** class Drift *)

(** What [template_matching] returns: [min_loc] or [max_loc] as OpenCV gave
    it, a pair of integers, or the pair of floats of [subpixel_peak]. *)
Inductive displacement (F : Type) : Type :=
| IntLoc (p : Z * Z)
| SubLoc (p : F * F).
Arguments IntLoc {F} p.
Arguments SubLoc {F} p.

Record Drift (DS F : Type) : Type := mkDrift {
  self_data : DS;
  self_template : ndarray F;
  self_drift : list (displacement F)
}.
Arguments mkDrift {DS F} _ _ _.
Arguments self_data {DS F} _.
Arguments self_template {DS F} _.
Arguments self_drift {DS F} _.

Definition default_method : string := "cv.TM_CCOEFF_NORMED".

Section DriftMethods.
Context {F : Type} {FO : FloatOps F} {CV : Cv2 F} {PE : PyEval}.

(** [subpixel_peak(max_var, results)], lines 91-105.  Python evaluates
    the subscripts from left to right; the first one that fails raises. *)
Definition subpixel_peak (max_var : Z * Z) (results : ndarray F)
  : result (F * F) :=
  let x := max_var.1 in
  let y := max_var.2 in
  let! xa := getitem2 results (x - 1) y in
  let! xb := getitem2 results (x + 1) y in
  let! xc := getitem2 results (x - 1) y in
  let! xd := getitem2 results (x + 1) y in
  let! xe := getitem2 results x y in
  let x_sub :=
    fadd (of_int x)
      (fdiv (fsub (flog xa) (flog xb))
            (fsub (fadd (fmul (of_int 2) (flog xc)) (fmul (of_int 2) (flog xd)))
                  (fmul (of_int 4) (flog xe)))) in
  let! ya := getitem2 results x (y - 1) in
  let! yb := getitem2 results x (y + 1) in
  let! yc := getitem2 results x (y - 1) in
  let! ye := getitem2 results x y in
  let! yd := getitem2 results x (y + 1) in
  let y_sub :=
    fadd (of_int y)
      (fdiv (fsub (flog ya) (flog yb))
            (fadd (fsub (fmul (of_int 2) (flog yc)) (fmul (of_int 4) (flog ye)))
                  (fmul (of_int 2) (flog yd)))) in
  Ok (x_sub, y_sub).

(** [template_matching(array, template, method, subpixel)], lines 63-88.
    [w, h = template.shape[::-1]] unpacks the two extents of the template
    (ValueError for an array that is not 2-D); neither is used.  The
    binding of [cv.matchTemplate] wants an integer method. *)
Definition template_matching (array template : ndarray F)
    (method : string) (subpixel : bool) : result (displacement F) :=
  let! method := py_eval method in
  let array := astype f32 array in
  let template := astype f32 template in
  let! _ := match shape template with
            | [_; _] => Ok tt
            | _ => Raise ValueError
            end in
  let! code := match method with
               | PInt z => Ok z
               | PNone | PStr _ => Raise TypeError
               end in
  let! res := matchTemplate array template code in
  let! '(min_val, max_val, min_loc, max_loc) := minMaxLoc res in
  if bool_decide (code = Cv.TM_SQDIFF \/ code = Cv.TM_SQDIFF_NORMED) then
    if subpixel then
      let! top_left := subpixel_peak min_loc res in Ok (SubLoc top_left)
    else Ok (IntLoc min_loc)
  else
    if subpixel then
      let! top_left := subpixel_peak max_loc res in Ok (SubLoc top_left)
    else Ok (IntLoc max_loc).

(** The body of the loop of [template_matching_stack] for one [i]. *)
Definition stack_slice (data : ndarray F) (stackAxisID : value) (i : Z)
  : result (ndarray F) :=
  match stackAxisID with
  | PInt k => take_axis data (insert_pos 2 k) i
  | PNone | PStr _ => Raise TypeError
  end.

(** The loop, with [driftlist] threaded through it. *)
Fixpoint stack_loop (data template : ndarray F) (stackAxisID : value)
    (method : string) (subpixel : bool)
    (range : list Z) (driftlist : list (displacement F))
  : result (list (displacement F)) :=
  match range with
  | [] => Ok driftlist
  | i :: range' =>
      let! slice_ := stack_slice data stackAxisID i in
      let! d := template_matching slice_ template method subpixel in
      stack_loop data template stackAxisID method subpixel range'
                 (driftlist ++ [d])
  end.

(** [template_matching_stack(data, template, stackAxisID, method,
    subpixel)], lines 52-60. *)
Definition template_matching_stack (data template : ndarray F)
    (stackAxisID : value) (method : string) (subpixel : bool)
  : result (list (displacement F)) :=
  let! n := tuple_getitem (shape data) stackAxisID in
  stack_loop data template stackAxisID method subpixel (seqZ 0 n) [].

(** The formulas of the design document for the refined peak, over the
    cells left and right of the centre [c] along one axis. *)
Definition x_refined (x : Z) (l c r : F) : F :=
  fadd (of_int x)
    (fdiv (fsub (flog l) (flog r))
          (fsub (fadd (fmul (of_int 2) (flog l)) (fmul (of_int 2) (flog r)))
                (fmul (of_int 4) (flog c)))).

Definition y_refined (y : Z) (l c r : F) : F :=
  fadd (of_int y)
    (fdiv (fsub (flog l) (flog r))
          (fadd (fsub (fmul (of_int 2) (flog l)) (fmul (of_int 4) (flog c)))
                (fmul (of_int 2) (flog r)))).

(** A strictly positive score. *)
Definition positive (v : F) : Prop := fltb (of_int 0) v = true.

(** The peak is not on the border: all four axis neighbours exist. *)
Definition interior (S : ndarray F) (x y : Z) : Prop :=
  exists n0 n1, shape S = [n0; n1] /\ 1 <= x <= n0 - 2 /\ 1 <= y <= n1 - 2.

(** The peak is on the border: it is a cell, and a neighbour is missing. *)
Definition on_border (S : ndarray F) (x y : Z) : Prop :=
  exists n0 n1, shape S = [n0; n1] /\ 0 <= x < n0 /\ 0 <= y < n1 /\
    (x = 0 \/ x = n0 - 1 \/ y = 0 \/ y = n1 - 1).

End DriftMethods.

Section DriftInit.
Context {DS F : Type} {FO : FloatOps F} {CV : Cv2 F} {PE : PyEval}
        {DO : DataSetOps DS F}.

Definition py_assert (b : bool) : result unit :=
  if b then Ok tt else Raise AssertionError.

(** [extract_3Ddata], lines 108-112. *)
Definition extract_3Ddata (data : DS) (stackAxisID xAxisID yAxisID : Z)
  : result DS :=
  let! _ := py_assert (ds_is_DataSet data) in
  project_nd data [stackAxisID; xAxisID; yAxisID].

(** [extract_templatedata], lines 115-122. *)
Definition extract_templatedata (data : DS) (xAxisID yAxisID : Z)
  : result (ndarray F) :=
  let! _ := py_assert (ds_is_DataSet data || ds_is_ROI data) in
  let! xAxisID := get_axis_index data (PInt xAxisID) in
  let! yAxisID := get_axis_index data (PInt yAxisID) in
  let! p := project_nd data [xAxisID; yAxisID] in
  get_datafield p 0.

(** The bounds of the guessed template along an axis of extent [dim]:
    [dim * 2 / 5] and [dim * 3 / 5], with Python 2's integer division. *)
Definition template_limits (dim : Z) : Z * Z := (dim * 2 / 5, dim * 3 / 5).

(** The dictionary literal [{xAxisID: (xl, xr), yAxisID: (yl, yr)}]. *)
Definition limitlist (xAxisID yAxisID : Z) (fieldshape : Z * Z)
  : gmap Z (Z * Z) :=
  <[yAxisID := template_limits fieldshape.2]>
    (<[xAxisID := template_limits fieldshape.1]> ∅).

(** [guess_templatedata], lines 125-136. *)
Definition guess_templatedata (data : DS) (xAxisID yAxisID : Z)
  : result (ndarray F) :=
  let! _ := py_assert (ds_is_DataSet data || ds_is_ROI data) in
  let! xAxisID := get_axis_index data (PInt xAxisID) in
  let! yAxisID := get_axis_index data (PInt yAxisID) in
  let! sx := tuple_getitem (ds_shape data) (PInt xAxisID) in
  let! sy := tuple_getitem (ds_shape data) (PInt yAxisID) in
  let fieldshape := (sx, sy) in
  let! roi := ROI data (limitlist xAxisID yAxisID fieldshape) true in
  let! p := project_nd roi [xAxisID; yAxisID] in
  get_datafield p 0.

(** An axis argument that is [None] stands for the given label. *)
Definition axis_or (axisID : value) (label : string) : value :=
  match axisID with
  | PNone => PStr label
  | _ => axisID
  end.

(** The first part of [__init__], lines 18-47: the attributes [self.data]
    and [self.template], set only when [data] is given and true. *)
Definition init_attributes (data template : option DS)
    (stackAxisID xAxisID yAxisID : value)
  : result (option (DS * ndarray F)) :=
  match data with
  | Some d =>
      if ds_truth d then
        let! dstackAxisID := get_axis_index d (axis_or stackAxisID "delay") in
        let! dxAxisID := get_axis_index d (axis_or xAxisID "x") in
        let! dyAxisID := get_axis_index d (axis_or yAxisID "y") in
        let! sd := extract_3Ddata d dstackAxisID dxAxisID dyAxisID in
        let! st :=
          match template with
          | Some t =>
              if ds_truth t then
                let! txAxisID := get_axis_index t (axis_or xAxisID "x") in
                let! tyAxisID := get_axis_index t (axis_or yAxisID "y") in
                extract_templatedata t txAxisID tyAxisID
              else guess_templatedata d dxAxisID dyAxisID
          | None => guess_templatedata d dxAxisID dyAxisID
          end in
        Ok (Some (sd, st))
      else Ok None
  | None => Ok None
  end.

(** [Drift.__init__], lines 12-50.  Line 50 reads [self.data] and
    [self.template]: AttributeError when they were not set.  The call
    gives [template_matching_stack] three arguments. *)
Definition Drift_init (data template : option DS)
    (stackAxisID xAxisID yAxisID : value) (subpixel : bool) (method : string)
  : result (Drift DS F) :=
  let! attrs := init_attributes data template stackAxisID xAxisID yAxisID in
  match attrs with
  | None => Raise AttributeError
  | Some (sd, st) =>
      let! field := get_datafield sd 0 in
      let! drift := template_matching_stack field st stackAxisID
                      default_method true in
      Ok (mkDrift sd st drift)
  end.

End DriftInit.

(** ** Notions used in the statements *)

Section Statements.
Context {F : Type} {FO : FloatOps F} {CV : Cv2 F} {PE : PyEval}.



(** What the loop body of [template_matching_stack] computes for [i]. *)
Definition slice_drift (data template : ndarray F) (stackAxisID : value)
    (method : string) (subpixel : bool) (i : Z) : result (displacement F) :=
  let! slice_ := stack_slice data stackAxisID i in
  template_matching slice_ template method subpixel.

(** The slice contains the template shifted by [(dx, dy)]: [dx] columns
    and [dy] rows. *)
Definition occurs_at (a t : ndarray F) (dx dy : Z) : Prop :=
  forall r c v, cell t r c = Some v -> cell a (dy + r) (dx + c) = Some v.

(** The number of slices of a 3-D array of shape [(n0, n1, n2)] along axis
    [k], and the extents of each. *)
Definition axis_len (n0 n1 n2 k : Z) : Z :=
  if bool_decide (k = 0) then n0
  else if bool_decide (k = 1) then n1 else n2.


Definition slice_shape (n0 n1 n2 k : Z) : Z * Z :=
  if bool_decide (k = 0) then (n1, n2)
  else if bool_decide (k = 1) then (n0, n2) else (n0, n1).

End Statements.

(** An array of 8-bit pixel values: every cell is an integer from 0 to 255.
    The cast to float32 keeps such data as it is, and the squared
    differences of up to 256 such pixels add up to less than 2^24. *)
Definition pixel8 (v : sym) : Prop := exists z, v = SLit z /\ 0 <= z <= 255.

Definition pixels8 (a : ndarray sym) : Prop := Forall pixel8 (buf a).

(** ** Concrete inputs, over the symbolic floats *)

Module Ex.

Definition ints (sh : list Z) (zs : list Z) : ndarray sym :=
  NdArray sh (SLit <$> zs).

(** A surface with its peak in the middle, and one with its peak in the
    first row. *)
Definition peak_inside : ndarray sym := ints [3; 3] [1; 2; 1;  3; 9; 4;  1; 5; 1].
Definition peak_on_edge : ndarray sym := ints [3; 3] [5; 9; 5;  4; 8; 4;  3; 7; 3].

(** A surface with a zero score next to its peak. *)
Definition zero_beside : ndarray sym := ints [3; 3] [1; 0; 1;  3; 9; 4;  1; 5; 1].

(** Two 2 x 2 slices and a one-pixel template. *)
Definition stack2 : ndarray sym := ints [2; 2; 2] [1; 2; 3; 4;  4; 3; 2; 1].
Definition pixel4 : ndarray sym := ints [1; 1] [4].

(** Where the pixel 4 is in each slice of [stack2], as (column, row). *)
Definition series2 : list (displacement sym) := [IntLoc (1, 1); IntLoc (0, 0)].

(** A 1 x 2 slice [[1, 9]] and the template [[1]], found at shift (0, 0)
    only. *)
Definition bright : ndarray sym := ints [1; 2] [1; 9].

(** A 2 x 2 slice whose last pixel is the template [pixel4], and one whose
    first pixel is. *)
Definition corner : ndarray sym := ints [2; 2] [1; 2; 3; 4].
Definition flipped : ndarray sym := ints [2; 2] [4; 3; 2; 1].

(** Two 1 x 1 slices and a 2 x 2 template, larger along both axes; a
    3 x 1 template, larger than the slices of [stack2] along the rows
    only. *)
Definition stack_small : ndarray sym := ints [2; 1; 1] [1; 2].
Definition templ_2x2 : ndarray sym := ints [2; 2] [1; 2; 3; 4].
Definition templ_3x1 : ndarray sym := ints [3; 1] [1; 2; 3].

End Ex.

(** ** The default template, in the words of the design document

    [lo = floor(dim * 2/5)], [hi = floor(dim * 3/5)] per spatial axis, over
    the rationals. *)

Definition central_region (dim : Z) : Z * Z :=
  (Qfloor (inject_Z dim * (2 # 5)), Qfloor (inject_Z dim * (3 # 5))).

Section GuessSpec.
Context {DS F : Type} {DO : DataSetOps DS F}.

(** [guess_templatedata] with the bounds of [central_region]. *)
Definition guess_templatedata_spec (data : DS) (xAxisID yAxisID : Z)
  : result (ndarray F) :=
  let! _ := py_assert (ds_is_DataSet data || ds_is_ROI data) in
  let! xAxisID := get_axis_index data (PInt xAxisID) in
  let! yAxisID := get_axis_index data (PInt yAxisID) in
  let! sx := tuple_getitem (ds_shape data) (PInt xAxisID) in
  let! sy := tuple_getitem (ds_shape data) (PInt yAxisID) in
  let! roi := ROI data (<[yAxisID := central_region sy]>
                          (<[xAxisID := central_region sx]> ∅)) true in
  let! p := project_nd roi [xAxisID; yAxisID] in
  get_datafield p 0.

End GuessSpec.

(** ** A minimal dataset container

    Enough to run the constructor on a stack and an explicit template: one
    array with labelled axes, which projects only onto all of its axes in
    their order and builds no regions of interest. *)

Module Toy.

Record dataset : Type := DataSet {
  axes : list string;
  field : ndarray sym
}.

Definition axis_index (d : dataset) (v : value) : result Z :=
  match v with
  | PStr s =>
      match list_find (fun l => l = s) (axes d) with
      | Some (i, _) => Ok (Z.of_nat i)
      | None => Raise ValueError
      end
  | PInt i =>
      if bool_decide (0 <= i < Z.of_nat (length (axes d))) then Ok i
      else Raise IndexError
  | PNone => Raise TypeError
  end.

Definition project (d : dataset) (ax : list Z) : result dataset :=
  if bool_decide (ax = seqZ 0 (Z.of_nat (length (axes d)))) then Ok d
  else Raise ValueError.

Definition datafield (d : dataset) (i : Z) : result (ndarray sym) :=
  if bool_decide (i = 0) then Ok (field d) else Raise IndexError.

(** A stack of two 3 x 3 frames along [delay], and a 2 x 2 template. *)
Definition frames : dataset :=
  DataSet ["delay"; "x"; "y"]%string
    (Ex.ints [2; 3; 3] [1; 2; 3; 4; 5; 6; 7; 8; 9;  9; 8; 7; 6; 5; 4; 3; 2; 1]).
Definition patch : dataset :=
  DataSet ["x"; "y"]%string (Ex.ints [2; 2] [5; 6; 8; 9]).

End Toy.

#[global] Instance toy_ops : DataSetOps Toy.dataset sym := {|
  ds_truth := fun _ => true;
  ds_is_DataSet := fun _ => true;
  ds_is_ROI := fun _ => false;
  ds_shape := fun d => shape (Toy.field d);
  get_axis_index := Toy.axis_index;
  project_nd := Toy.project;
  get_datafield := Toy.datafield;
  ROI := fun _ _ _ => Raise ValueError
|}.

(** The constructor on the frames and the patch, with the stack axis given
    as the index 0, and with the stack axis left to its default. *)
Definition built_by_index : result (Drift Toy.dataset sym) :=
  Drift_init (Some Toy.frames) (Some Toy.patch) (PInt 0) PNone PNone
             false "cv.TM_SQDIFF".
Definition built_by_default : result (Drift Toy.dataset sym) :=
  Drift_init (Some Toy.frames) (Some Toy.patch) PNone PNone PNone
             false "cv.TM_SQDIFF".

(** ** The matching routines over a store

    Arrays are objects in a store and the routines receive references.  A
    reference names the object that owns the buffer and how the array is
    read off it: the whole object, or a slice such as [a[i, :, :]], which is
    a view, owns no buffer, and reads and writes through to the array it was
    taken from.  [np.float32] and [cv.matchTemplate] allocate their results
    and leave their arguments alone.  The store records every array ever
    allocated, at its address. *)

Inductive view : Set :=
| Whole
| Slice (p i : Z).     (* the subscript with [i] at position [p] *)

Record aref : Set := ARef {
  base : nat;
  sub : view
}.

(** [eval(method)] over the store.  Python evaluates the string in the
    frame of [template_matching], where the names [array] and [template] are
    bound to the two arguments: the expression can read them and, through
    their methods, change them.  So the evaluation is an action on the
    store, given the two references. *)
Class PyEvalSt (F : Type) := {
  py_eval_st : string -> aref -> aref ->
               list (ndarray F) -> result value * list (ndarray F)
}.

Section Store.
Context {F : Type} {FO : FloatOps F} {CV : Cv2 F} {PE : PyEval}
        {PES : PyEvalSt F}.

Definition St (A : Type) : Type :=
  list (ndarray F) -> result A * list (ndarray F).


Definition st_bind {A B} (c : St A) (k : A -> St B) : St B :=
  fun h =>
    match c h with
    | (Ok a, h') => k a h'
    | (Raise e, h') => (Raise e, h')
    end.






(** The cells of the buffer of shape [sh] that a view covers. *)
Definition in_view (sh : list Z) (v : view) (k : nat) : bool :=
  match v with
  | Whole => true
  | Slice p i =>
      match sh with
      | [n0; n1; n2] =>
          let k := Z.of_nat k in
          let '(n, c) :=
            if bool_decide (p = 0) then (n0, k `div` (n1 * n2))
            else if bool_decide (p = 1) then (n1, (k `div` n2) `mod` n1)
            else (n2, k `mod` n2) in
          match norm_index n i with
          | Ok i' => bool_decide (c = i')
          | Raise _ => false
          end
      | _ => false
      end
  end.

(** [r.fill(v)]: every element of the array that [r] denotes becomes [v], in
    the buffer of the object that owns it. *)
Definition ndarray_fill (v : F) (r : aref) (h : list (ndarray F))
  : list (ndarray F) :=
  alter (fun a => NdArray (shape a)
                    (imap (fun k x => if in_view (shape a) (sub r) k then v else x)
                          (buf a)))
        (base r) h.

Local Notation "'do!' x := c 'in' k" := (st_bind c (fun x => k))
  (at level 10, x name, c at level 100, k at level 200).














End Store.

(** An evaluator over the store: the strings of [EvalRef], which do not
    touch the store, and one expression that does.  [array.fill(0)] sets
    every element of [array] to zero and gives [None], so the expression has
    the value of [cv.TM_SQDIFF]. *)
Definition fill_method : string := "array.fill(0) or cv.TM_SQDIFF".

#[global] Instance eval_fill : PyEvalSt sym := {|
  py_eval_st := fun s array template h =>
    if bool_decide (s = fill_method)
    then (Ok (PInt Cv.TM_SQDIFF), ndarray_fill (SLit 0) array h)
    else (EvalRef.eval_ref s, h)
|}.


(** ** Further inputs *)

Module Ex2.

(** A 2 x 4 slice: the pixel 4 is in row 0, column 3. *)
Definition wide : ndarray sym := Ex.ints [2; 4] [1; 2; 3; 4;  5; 6; 7; 8].

(** A 1-D array, a stack without slices, and a stack of shape (1, 1, 2). *)
Definition line3 : ndarray sym := Ex.ints [3] [1; 2; 3].
Definition no_slices : ndarray sym := Ex.ints [0; 2; 2] [].
Definition pair : ndarray sym := Ex.ints [1; 1; 2] [1; 2].

(** Two 2 x 2 slices: the pixel 4 is the first pixel of slice 0 and the last
    pixel of slice 1. *)
Definition stack_rev : ndarray sym := Ex.ints [2; 2; 2] [4; 3; 2; 1;  1; 2; 3; 4].

(** A stack of shape (1, 3, 2), [[[4, 1], [2, 3], [4, 4]]]: its two slices
    along the last axis are [[4, 2, 4]] and [[1, 3, 4]], its three slices
    along axis 1 are [[4, 1]], [[2, 3]] and [[4, 4]]. *)
Definition rows3 : ndarray sym := Ex.ints [1; 3; 2] [4; 1;  2; 3;  4; 4].

End Ex2.

(** The toy container seen as a region of interest: it is no [DataSet]
    instance. *)
Definition toy_roi_ops : DataSetOps Toy.dataset sym := {|
  ds_truth := fun _ => true;
  ds_is_DataSet := fun _ => false;
  ds_is_ROI := fun _ => true;
  ds_shape := fun d => shape (Toy.field d);
  get_axis_index := Toy.axis_index;
  project_nd := Toy.project;
  get_datafield := Toy.datafield;
  ROI := fun _ _ _ => Raise ValueError
|}.

(** * Properties *)

(** ** The exception monad and indexing *)

Lemma bind_Ok_inv {A B} (m : result A) (k : A -> result B) (b : B) :
  Py.bind m k = Ok b -> exists a, m = Ok a /\ k a = Ok b.
Proof. destruct m as [a|e]; simpl; [eauto | discriminate]. Qed.

Lemma bind_Raise_inv {A B} (m : result A) (k : A -> result B) (e : exn) :
  Py.bind m k = Raise e -> m = Raise e \/ exists a, m = Ok a /\ k a = Raise e.
Proof. destruct m as [a|e']; simpl; [eauto | intros [= ->]; auto]. Qed.

Lemma norm_index_in (n i : Z) : 0 <= i < n -> norm_index n i = Ok i.
Proof. intros Hi. unfold norm_index. rewrite bool_decide_true; done. Qed.

Lemma norm_index_wrap (n i : Z) : - n <= i < 0 -> norm_index n i = Ok (i + n).
Proof.
  intros Hi. unfold norm_index.
  rewrite bool_decide_false by lia. rewrite bool_decide_true; done.
Qed.

Lemma norm_index_out (n i : Z) : n <= i -> 0 <= n -> norm_index n i = Raise IndexError.
Proof.
  intros Hi Hn. unfold norm_index.
  rewrite !bool_decide_false by lia. done.
Qed.

Lemma norm_index_Ok_inv (n i j : Z) : norm_index n i = Ok j -> 0 <= j < n.
Proof.
  unfold norm_index.
  destruct (bool_decide_reflect (0 <= i < n)); [intros [= <-]; lia|].
  destruct (bool_decide_reflect (- n <= i < 0)); [intros [= <-]; lia|].
  discriminate.
Qed.

Lemma norm_index_Ok_range (n i j : Z) : norm_index n i = Ok j -> - n <= i < n.
Proof.
  unfold norm_index.
  destruct (bool_decide_reflect (0 <= i < n)); [intros _; lia|].
  destruct (bool_decide_reflect (- n <= i < 0)); [intros _; lia|].
  discriminate.
Qed.

Lemma norm_index_Raise_inv (n i : Z) (e : exn) :
  norm_index n i = Raise e -> e = IndexError.
Proof.
  unfold norm_index. repeat destruct (bool_decide _); congruence.
Qed.

Section ArrayFacts.
Context {F : Type}.
Implicit Types a : ndarray F.

Lemma cell_Some_shape a i j v :
  cell a i j = Some v ->
  exists n0 n1, shape a = [n0; n1] /\ 0 <= i < n0 /\ 0 <= j < n1 /\
                buf a !! Z.to_nat (i * n1 + j) = Some v.
Proof.
  unfold cell. destruct (shape a) as [|n0 [|n1 [|? ?]]]; try discriminate.
  destruct (bool_decide_reflect (0 <= i < n0 /\ 0 <= j < n1)) as [[Hi Hj]|];
    [|discriminate].
  intros Hb. by exists n0, n1.
Qed.

Lemma cell_lookup a n0 n1 i j :
  shape a = [n0; n1] -> 0 <= i < n0 -> 0 <= j < n1 ->
  cell a i j = buf a !! Z.to_nat (i * n1 + j).
Proof.
  intros Hs Hi Hj. unfold cell. rewrite Hs. rewrite bool_decide_true; done.
Qed.

(** In a well-formed 2-D array every position in range holds a value. *)
Lemma cell_is_Some a n0 n1 i j :
  wf a -> shape a = [n0; n1] -> 0 <= i < n0 -> 0 <= j < n1 ->
  is_Some (cell a i j).
Proof.
  intros [_ Hlen] Hs Hi Hj. rewrite (cell_lookup a n0 n1) by done.
  apply lookup_lt_is_Some. rewrite Hs in Hlen. simpl in Hlen. nia.
Qed.

(** Subscripting at a position in range reads that cell. *)
Lemma getitem2_cell a i j v : cell a i j = Some v -> getitem2 a i j = Ok v.
Proof.
  intros (n0 & n1 & Hs & Hi & Hj & Hb)%cell_Some_shape.
  unfold getitem2. rewrite Hs, !norm_index_in by done. simpl. by rewrite Hb.
Qed.

(** A negative first index reads from the far end of the first axis. *)
Lemma getitem2_wrap_row a n0 n1 i j v :
  shape a = [n0; n1] -> - n0 <= i < 0 -> cell a (i + n0) j = Some v ->
  getitem2 a i j = Ok v.
Proof.
  intros Hs Hi (m0 & m1 & Hs' & Hi' & Hj & Hb)%cell_Some_shape.
  rewrite Hs in Hs'. injection Hs' as <- <-.
  unfold getitem2. rewrite Hs, norm_index_wrap, norm_index_in by done.
  simpl. by rewrite Hb.
Qed.

Lemma getitem2_wrap_col a n0 n1 i j v :
  shape a = [n0; n1] -> - n1 <= j < 0 -> cell a i (j + n1) = Some v ->
  getitem2 a i j = Ok v.
Proof.
  intros Hs Hj (m0 & m1 & Hs' & Hi & Hj' & Hb)%cell_Some_shape.
  rewrite Hs in Hs'. injection Hs' as <- <-.
  unfold getitem2. rewrite Hs, norm_index_in, norm_index_wrap by done.
  simpl. by rewrite Hb.
Qed.

(** An index at or past the end of its axis raises IndexError. *)
Lemma getitem2_past_row a n0 n1 i j :
  shape a = [n0; n1] -> 0 <= n0 <= i -> getitem2 a i j = Raise IndexError.
Proof.
  intros Hs Hi. unfold getitem2. rewrite Hs, norm_index_out by lia. done.
Qed.

Lemma getitem2_past_col a n0 n1 i j :
  shape a = [n0; n1] -> 0 <= n1 <= j -> getitem2 a i j = Raise IndexError.
Proof.
  intros Hs Hj. unfold getitem2. rewrite Hs.
  destruct (norm_index n0 i) as [i'|e] eqn:Hi; simpl.
  - by rewrite norm_index_out by lia.
  - by rewrite (norm_index_Raise_inv _ _ _ Hi).
Qed.

End ArrayFacts.

(** ** subpixel_peak *)

Section SubpixelFacts.
Context {F : Type} {FO : FloatOps F}.
Implicit Types S : ndarray F.

(** When the five subscripts read the cells [l], [r] (first axis), [u],
    [d] (second axis) and [c] (centre), the result is the pair of the two
    log-parabola estimates. *)
Lemma subpixel_peak_reads S x y l r c u d :
  getitem2 S (x - 1) y = Ok l -> getitem2 S (x + 1) y = Ok r ->
  getitem2 S x y = Ok c ->
  getitem2 S x (y - 1) = Ok u -> getitem2 S x (y + 1) = Ok d ->
  subpixel_peak (x, y) S = Ok (x_refined x l c r, y_refined y u c d).
Proof.
  intros Hl Hr Hc Hu Hd. unfold subpixel_peak. simpl.
  rewrite Hl, Hr, Hc, Hu, Hd. reflexivity.
Qed.

(** [subpixel_peak] raises nothing but IndexError. *)
Lemma subpixel_peak_Raise_inv S p e :
  subpixel_peak p S = Raise e -> e = IndexError.
Proof.
  assert (Hg : forall i j e', getitem2 S i j = Raise e' -> e' = IndexError).
  { intros i j e'. unfold getitem2.
    destruct (shape S) as [|n0 [|n1 [|? ?]]]; try congruence.
    destruct (norm_index n0 i) eqn:Hi; simpl;
      [| intros [= <-]; eauto using norm_index_Raise_inv].
    destruct (norm_index n1 j) eqn:Hj; simpl;
      [| intros [= <-]; eauto using norm_index_Raise_inv].
    destruct (buf S !! _); congruence. }
  unfold subpixel_peak.
  repeat (let E := fresh in
          intros [E | (? & _ & E)]%bind_Raise_inv; [by eapply Hg | revert E]).
  discriminate.
Qed.

(** An interior peak of a well-formed surface: no subscript wraps or
    fails, whatever the scores are. *)
Lemma subpixel_peak_in_range S x y :
  wf S -> interior S x y ->
  exists l r c u d,
    cell S (x - 1) y = Some l /\ cell S (x + 1) y = Some r /\
    cell S x y = Some c /\
    cell S x (y - 1) = Some u /\ cell S x (y + 1) = Some d /\
    subpixel_peak (x, y) S = Ok (x_refined x l c r, y_refined y u c d).
Proof.
  intros Hwf (n0 & n1 & Hs & Hx & Hy).
  destruct (cell_is_Some S n0 n1 (x - 1) y) as [l Hl]; [done | done | lia | lia |].
  destruct (cell_is_Some S n0 n1 (x + 1) y) as [r Hr]; [done | done | lia | lia |].
  destruct (cell_is_Some S n0 n1 x y) as [c Hc]; [done | done | lia | lia |].
  destruct (cell_is_Some S n0 n1 x (y - 1)) as [u Hu]; [done | done | lia | lia |].
  destruct (cell_is_Some S n0 n1 x (y + 1)) as [d Hd]; [done | done | lia | lia |].
  exists l, r, c, u, d. repeat split; try done.
  apply subpixel_peak_reads; by apply getitem2_cell.
Qed.

(** A peak in the first row or column: the subscript [-1] is a valid numpy
    index, so the neighbour is taken from the opposite edge of the surface
    and a refined position is returned. *)
Lemma subpixel_peak_first_row S n0 n1 y :
  wf S -> shape S = [n0; n1] -> 2 <= n0 -> 1 <= y <= n1 - 2 ->
  exists l r c u d,
    cell S (n0 - 1) y = Some l /\ cell S 1 y = Some r /\ cell S 0 y = Some c /\
    cell S 0 (y - 1) = Some u /\ cell S 0 (y + 1) = Some d /\
    subpixel_peak (0, y) S = Ok (x_refined 0 l c r, y_refined y u c d).
Proof.
  intros Hwf Hs Hn Hy.
  destruct (cell_is_Some S n0 n1 (n0 - 1) y) as [l Hl]; [done | done | lia | lia |].
  destruct (cell_is_Some S n0 n1 1 y) as [r Hr]; [done | done | lia | lia |].
  destruct (cell_is_Some S n0 n1 0 y) as [c Hc]; [done | done | lia | lia |].
  destruct (cell_is_Some S n0 n1 0 (y - 1)) as [u Hu]; [done | done | lia | lia |].
  destruct (cell_is_Some S n0 n1 0 (y + 1)) as [d Hd]; [done | done | lia | lia |].
  exists l, r, c, u, d. repeat split; try done.
  apply subpixel_peak_reads; try by apply getitem2_cell.
  apply (getitem2_wrap_row S n0 n1); [done | lia |].
  by replace (0 - 1 + n0) with (n0 - 1) by lia.
Qed.

(** A peak in the last row: the subscript [x + 1] is past the end. *)
Lemma subpixel_peak_last_row S n0 n1 y :
  wf S -> shape S = [n0; n1] -> 2 <= n0 -> 0 <= y < n1 ->
  subpixel_peak (n0 - 1, y) S = Raise IndexError.
Proof.
  intros Hwf Hs Hn Hy.
  destruct (cell_is_Some S n0 n1 (n0 - 2) y) as [l Hl]; [done | done | lia | lia |].
  unfold subpixel_peak. simpl.
  replace (n0 - 1 - 1) with (n0 - 2) by lia.
  rewrite (getitem2_cell _ _ _ _ Hl). simpl.
  rewrite (getitem2_past_row S n0 n1) by (done || lia). done.
Qed.

End SubpixelFacts.

(** C2.  For a well-formed correlation surface [S] and a peak [(x, y)] that
    is not on its border, with strictly positive scores at the peak and at
    its four axis neighbours, [subpixel_peak] returns exactly the pair of
    log-parabola estimates
    [x + (ln S[x-1,y] - ln S[x+1,y]) / (2 ln S[x-1,y] + 2 ln S[x+1,y] - 4 ln S[x,y])]
    and
    [y + (ln S[x,y-1] - ln S[x,y+1]) / (2 ln S[x,y-1] - 4 ln S[x,y] + 2 ln S[x,y+1])],
    where [x] indexes the first axis of [S] and [y] the second. *)
Theorem subpixel_peak_log_parabola {F : Type} {FO : FloatOps F}
    (S : ndarray F) (x y : Z) (l r c u d : F) :
  wf S -> interior S x y ->
  cell S (x - 1) y = Some l -> cell S (x + 1) y = Some r ->
  cell S x y = Some c ->
  cell S x (y - 1) = Some u -> cell S x (y + 1) = Some d ->
  positive l -> positive r -> positive c -> positive u -> positive d ->
  subpixel_peak (x, y) S = Ok (x_refined x l c r, y_refined y u c d).
Proof.
  intros Hwf Hin Hl Hr Hc Hu Hd _ _ _ _ _.
  destruct (subpixel_peak_in_range S x y Hwf Hin)
    as (l' & r' & c' & u' & d' & Hl' & Hr' & Hc' & Hu' & Hd' & Heq).
  congruence.
Qed.

(** ** The reference instances meet their contracts *)

Lemma sym_ltb_irrefl (a : sym) : sym_ltb a a = false.
Proof.
  unfold sym_ltb. destruct (exact a); [|done].
  apply bool_decide_eq_false. lia.
Qed.

Lemma sym_ltb_trans (a b c : sym) :
  sym_ltb a b = true -> sym_ltb b c = true -> sym_ltb a c = true.
Proof.
  unfold sym_ltb.
  destruct (exact a), (exact b), (exact c); try discriminate.
  rewrite !bool_decide_eq_true. lia.
Qed.

#[global] Instance sym_order : FloatOrder sym :=
  {| fltb_irrefl := sym_ltb_irrefl; fltb_trans := sym_ltb_trans |}.

Lemma length_positions (m0 m1 : Z) :
  0 <= m0 -> 0 <= m1 -> Z.of_nat (length (positions m0 m1)) = m0 * m1.
Proof.
  intros H0 H1. unfold positions.
  assert (Hg : forall l : list Z,
             length (l ≫= fun r => seqZ 0 m1 ≫= fun c => [(r, c)])
             = (length l * Z.to_nat m1)%nat).
  { induction l as [|r l IH]; [done|].
    rewrite bind_cons, length_app, IH. simpl. f_equal.
    generalize (seqZ 0 m1) (length_seqZ 0 m1).
    intros l' <-. induction l' as [|c l' IH']; [done|].
    rewrite bind_cons, length_app, IH'. done. }
  rewrite Hg, length_seqZ. nia.
Qed.

Section MinMaxLocRef.
Context {F : Type} {FO : FloatOps F} {FOrd : FloatOrder F}.

Lemma mm_step_inv n1 b k acc v :
  b !! k = Some v -> CvRef.mm_inv n1 b k acc ->
  CvRef.mm_inv n1 b (S k) (CvRef.mm_step n1 acc k v).
Proof.
  destruct acc as [[[mn mx] lmin] lmax]. simpl.
  intros Hk (Hmin & Hmax & Hlo & Hhi). repeat split.
  - destruct (fltb v mn); [by exists k | done].
  - destruct (fltb mx v); [by exists k | done].
  - intros j w Hj Hw. destruct (fltb v mn) eqn:Hv.
    + destruct (decide (j = k)) as [->|Hne].
      * rewrite Hk in Hw. injection Hw as <-. apply fltb_irrefl.
      * destruct (fltb w v) eqn:Hwv; [|done].
        rewrite <- (Hlo j w); [| lia | done].
        symmetry. by eapply fltb_trans.
    + destruct (decide (j = k)) as [->|Hne].
      * rewrite Hk in Hw. by injection Hw as <-.
      * apply (Hlo j); [lia | done].
  - intros j w Hj Hw. destruct (fltb mx v) eqn:Hv.
    + destruct (decide (j = k)) as [->|Hne].
      * rewrite Hk in Hw. injection Hw as <-. apply fltb_irrefl.
      * destruct (fltb v w) eqn:Hwv; [|done].
        rewrite <- (Hhi j w); [| lia | done].
        symmetry. by eapply fltb_trans.
    + destruct (decide (j = k)) as [->|Hne].
      * rewrite Hk in Hw. by injection Hw as <-.
      * apply (Hhi j); [lia | done].
Qed.

Lemma mm_scan_inv n1 b l : forall k acc,
  (forall j : nat, l !! j = b !! (k + j)%nat) ->
  CvRef.mm_inv n1 b k acc ->
  CvRef.mm_inv n1 b (k + length l) (CvRef.mm_scan n1 acc k l).
Proof.
  induction l as [|v l IH]; intros k acc Hl Hinv; simpl.
  - by rewrite Nat.add_0_r.
  - replace (k + S (length l))%nat with (S k + length l)%nat by lia.
    apply IH.
    + intros j. specialize (Hl (S j)). simpl in Hl. rewrite Hl. f_equal. lia.
    + apply mm_step_inv; [|done]. specialize (Hl 0%nat). simpl in Hl.
      by rewrite Nat.add_0_r in Hl.
Qed.

End MinMaxLocRef.

Section CvRefSpec.
Context {F : Type} {FO : FloatOps F} {FOrd : FloatOrder F}.

Lemma matchTemplate_ref_wf (a t : ndarray F) (m : Z) (S : ndarray F) :
  CvRef.matchTemplate_ref a t m = Ok S ->
  wf S /\ exists n0 n1, shape S = [n0; n1] /\ 1 <= n0 /\ 1 <= n1.
Proof.
  unfold CvRef.matchTemplate_ref.
  destruct (bool_decide _); [|discriminate].
  destruct (shape a) as [|H' [|W' [|? ?]]]; try discriminate.
  destruct (shape t) as [|h' [|w' [|? ?]]]; try discriminate.
  destruct (bool_decide_reflect (H' < h' \/ W' < w')) as [Hsw|Hsw]; simpl.
  - destruct (bool_decide_reflect (H' <= h' /\ W' <= w')) as [Hle|]; simpl;
      [|discriminate].
    destruct (bool_decide _); [|discriminate]. intros [= <-].
    split; [|eexists _, _; split; [done|simpl; lia]]. split; simpl.
    + repeat constructor; lia.
    + rewrite length_fmap, length_positions by lia. lia.
  - destruct (bool_decide _); [|discriminate]. intros [= <-].
    split; [|eexists _, _; split; [done|simpl; lia]]. split; simpl.
    + repeat constructor; lia.
    + rewrite length_fmap, length_positions by lia. lia.
Qed.

(** A template larger than the image along one axis and smaller along the
    other is rejected. *)
Lemma matchTemplate_ref_mixed (a t : ndarray F) (m H W h w : Z) :
  shape a = [H; W] -> shape t = [h; w] ->
  (H < h /\ w < W) \/ (h < H /\ W < w) ->
  CvRef.matchTemplate_ref a t m = Raise CvError.
Proof.
  intros Ha Ht Hmixed. unfold CvRef.matchTemplate_ref. rewrite Ha, Ht.
  destruct (bool_decide _); [|done].
  rewrite bool_decide_true by lia. by rewrite bool_decide_false by lia.
Qed.

Lemma minMaxLoc_ref_total (S : ndarray F) n0 n1 :
  wf S -> shape S = [n0; n1] -> 1 <= n0 -> 1 <= n1 ->
  exists r, CvRef.minMaxLoc_ref S = Ok r.
Proof.
  intros [_ Hlen] Hs Hn0 Hn1. unfold CvRef.minMaxLoc_ref.
  rewrite Hs in *. simpl in Hlen.
  destruct (buf S); [simpl in Hlen; nia | by eauto].
Qed.

Lemma minMaxLoc_ref_inv (S : ndarray F) mn mx lmin lmax :
  CvRef.minMaxLoc_ref S = Ok (mn, mx, lmin, lmax) ->
  exists n0 n1, shape S = [n0; n1] /\ buf S <> [] /\
    CvRef.mm_inv n1 (buf S) (length (buf S)) (mn, mx, lmin, lmax).
Proof.
  unfold CvRef.minMaxLoc_ref.
  destruct (shape S) as [|n0 [|n1 [|? ?]]]; try discriminate.
  destruct (buf S) as [|v b] eqn:Hb; [discriminate|]. intros Hscan.
  exists n0, n1. split; [done|]. split; [done|].
  replace (mn, mx, lmin, lmax)
    with (CvRef.mm_scan n1 (v, v, (0, 0), (0, 0)) 0 (v :: b)) by congruence.
  apply (mm_scan_inv n1 (v :: b) (v :: b) 0); [done|].
  repeat split; try (by exists 0%nat); intros; lia.
Qed.

(** From a position in the buffer to the cell it is. *)
Lemma cell_of_index (S : ndarray F) n0 n1 (km : nat) v :
  wf S -> shape S = [n0; n1] -> buf S !! km = Some v ->
  cell S (Z.of_nat km `div` n1) (Z.of_nat km `mod` n1) = Some v.
Proof.
  intros [Hnn Hlen] Hs Hk. rewrite Hs in Hlen, Hnn. simpl in Hlen.
  apply lookup_lt_Some in Hk as Hlt.
  assert (0 <= n0 /\ 0 <= n1) as [Hn0 Hn1].
  { by inversion Hnn as [|? ? ? Hnn']; inversion Hnn'. }
  assert (0 < n1) by nia.
  pose proof (Z.mod_pos_bound (Z.of_nat km) n1 ltac:(done)).
  pose proof (Z.div_mod (Z.of_nat km) n1 ltac:(lia)).
  assert (0 <= Z.of_nat km `div` n1 < n0).
  { split; [apply Z.div_pos; lia|]. apply Z.div_lt_upper_bound; nia. }
  rewrite (cell_lookup S n0 n1) by done.
  replace (Z.to_nat _) with km by lia. done.
Qed.

#[global] Instance cv2_ref_spec : Cv2Spec F.
Proof.
  split.
  - intros a t m Hm _. simpl. unfold CvRef.matchTemplate_ref.
    by rewrite bool_decide_false.
  - intros a t m S. apply matchTemplate_ref_wf.
  - apply minMaxLoc_ref_total.
  - intros S mn mx lmin lmax Hwf
      (n0 & n1 & Hs & _ & (km & Hkm & ->) & _ & Hlo & _)%minMaxLoc_ref_inv.
    split; [by eapply cell_of_index|].
    intros i j v (m0 & m1 & _ & _ & _ & Hv)%cell_Some_shape.
    eapply Hlo; [|done]. by eapply lookup_lt_Some.
  - intros S mn mx lmin lmax Hwf
      (n0 & n1 & Hs & _ & _ & (km & Hkm & ->) & _ & Hhi)%minMaxLoc_ref_inv.
    split; [by eapply cell_of_index|].
    intros i j v (m0 & m1 & _ & _ & _ & Hv)%cell_Some_shape.
    eapply Hhi; [|done]. by eapply lookup_lt_Some.
Qed.

End CvRefSpec.

Lemma eval_ref_names (s : string) (z : Z) :
  (s, z) ∈ method_names -> EvalRef.eval_ref s = Ok (PInt z).
Proof.
  unfold method_names. rewrite !elem_of_cons, elem_of_nil.
  intros [[= -> ->] | [[= -> ->] | [[= -> ->] | [[= -> ->] | [[= -> ->] | [[= -> ->] | []]]]]]];
    reflexivity.
Qed.

#[global] Instance py_eval_ref_spec : PyEvalSpec :=
  {| py_eval_names := eval_ref_names |}.

(** ** template_matching *)

Section TemplateMatchingFacts.
Context {F : Type} {FO : FloatOps F} {FOrd : FloatOrder F} {CV : Cv2 F}
        {CVS : Cv2Spec F} {PE : PyEval}.
Implicit Types a t S : ndarray F.







End TemplateMatchingFacts.

(** ** Slicing the stack *)

Lemma elem_of_positions (m0 m1 r c : Z) :
  (r, c) ∈ positions m0 m1 <-> 0 <= r < m0 /\ 0 <= c < m1.
Proof.
  unfold positions. rewrite list_elem_of_bind. split.
  - intros (r' & (c' & Hrc & Hc)%list_elem_of_bind & Hr).
    apply list_elem_of_singleton in Hrc as [= -> ->].
    apply elem_of_seqZ in Hr, Hc. lia.
  - intros [Hr Hc]. exists r. split; [|apply elem_of_seqZ; lia].
    apply list_elem_of_bind. exists c.
    split; [by apply list_elem_of_singleton | apply elem_of_seqZ; lia].
Qed.

Lemma offset_bound (a b n m : Z) :
  0 <= a < n -> 0 <= b < m -> 0 <= a * m + b < n * m.
Proof. nia. Qed.

Section SliceFacts.
Context {F : Type}.
Implicit Types a : ndarray F.

(** Gathering at offsets inside the buffer gives a well-formed array. *)
Lemma gather_Ok a (m0 m1 : Z) (idx : Z -> Z -> Z) :
  0 <= m0 -> 0 <= m1 ->
  (forall r c, 0 <= r < m0 -> 0 <= c < m1 ->
               0 <= idx r c < Z.of_nat (length (buf a))) ->
  exists sl, gather a m0 m1 idx = Ok sl /\ shape sl = [m0; m1] /\ wf sl.
Proof.
  intros H0 H1 Hidx. unfold gather.
  destruct (mapM _ (positions m0 m1)) as [b|] eqn:Hb.
  - eexists. split; [done|]. split; [done|]. split; simpl.
    + repeat constructor; lia.
    + apply length_mapM in Hb. rewrite <- Hb, length_positions by done. lia.
  - apply mapM_None in Hb. apply Exists_exists in Hb as ([r c] & Hin & Hnone).
    apply elem_of_positions in Hin as [Hr Hc]. simpl in Hnone.
    apply lookup_ge_None in Hnone. specialize (Hidx r c Hr Hc). lia.
Qed.


Local Ltac slice_offset :=
  match goal with
  | |- 0 <= (?x * ?n1 + ?y) * ?n2 + ?z < _ =>
      pose proof (offset_bound x y _ n1 ltac:(eassumption) ltac:(eassumption));
      pose proof (offset_bound (x * n1 + y) z _ n2 ltac:(eassumption)
                    ltac:(eassumption));
      lia
  end.

(** On a well-formed 3-D array, the subscript with [i] at position [p]
    gives the 2-D array over the two other axes. *)
Lemma take_axis_Ok a n0 n1 n2 (p i : Z) :
  wf a -> shape a = [n0; n1; n2] -> 0 <= p <= 2 ->
  0 <= i < (if bool_decide (p = 0) then n0
            else if bool_decide (p = 1) then n1 else n2) ->
  exists sl, take_axis a p i = Ok sl /\ wf sl /\
    shape sl = (if bool_decide (p = 0) then [n1; n2]
                else if bool_decide (p = 1) then [n0; n2] else [n0; n1]).
Proof.
  intros [Hnn Hlen] Hs Hp Hi. unfold take_axis. rewrite Hs in *.
  simpl in Hlen.
  assert (0 <= n0 /\ 0 <= n1 /\ 0 <= n2) as (Hn0 & Hn1 & Hn2).
  { inversion Hnn as [|? ? ? Hnn1]; inversion Hnn1 as [|? ? ? Hnn2];
      by inversion Hnn2. }
  destruct (bool_decide_reflect (p = 0)).
  { rewrite norm_index_in by done. simpl.
    destruct (gather_Ok a n1 n2 (fun r c => (i * n1 + r) * n2 + c))
      as (sl & Hsl & ? & ?); [done | done | intros r c Hr Hc; slice_offset |].
    exists sl. by rewrite Hsl. }
  destruct (bool_decide_reflect (p = 1)).
  { rewrite norm_index_in by done. simpl.
    destruct (gather_Ok a n0 n2 (fun r c => (r * n1 + i) * n2 + c))
      as (sl & Hsl & ? & ?); [done | done | intros r c Hr Hc; slice_offset |].
    exists sl. by rewrite Hsl. }
  rewrite bool_decide_true by lia.
  rewrite norm_index_in by done. simpl.
  destruct (gather_Ok a n0 n1 (fun r c => (r * n1 + c) * n2 + i))
    as (sl & Hsl & ? & ?); [done | done | intros r c Hr Hc; slice_offset |].
  exists sl. by rewrite Hsl.
Qed.

End SliceFacts.

(** ** template_matching_stack *)

Section StackFacts.
Context {F : Type} {FO : FloatOps F} {CV : Cv2 F} {PE : PyEval}.
Implicit Types data template : ndarray F.

(** The loop succeeds exactly when every index does, and then appends the
    displacements in the order of the indices. *)
Lemma stack_loop_Ok data template sid m sp range : forall acc ds,
  stack_loop data template sid m sp range acc = Ok ds <->
  exists new, ds = acc ++ new /\
    Forall2 (fun i d => slice_drift data template sid m sp i = Ok d) range new.
Proof.
  induction range as [|i range IH]; intros acc ds; simpl.
  - split.
    + intros [= <-]. exists []. by rewrite app_nil_r.
    + intros (new & -> & ->%Forall2_nil_inv_l). by rewrite app_nil_r.
  - unfold slice_drift in *. split.
    + intros (sl & Hsl & (d & Hd & Hrest)%bind_Ok_inv)%bind_Ok_inv.
      apply IH in Hrest as (new & -> & Hnew).
      exists (d :: new). rewrite <- app_assoc. split; [done|].
      constructor; [|done]. by rewrite Hsl.
    + intros (new & -> & Hnew).
      apply Forall2_cons_inv_l in Hnew as (d & new' & Hd & Hnew' & ->).
      apply bind_Ok_inv in Hd as (sl & Hsl & Hd).
      rewrite Hsl. simpl. rewrite Hd. simpl. apply IH.
      exists new'. by rewrite <- app_assoc.
Qed.

(** The loop stops at the first index that raises, with that exception:
    the displacements collected so far are dropped. *)
Lemma stack_loop_Raise data template sid m sp pre i post acc e :
  Forall (fun j => is_ok (slice_drift data template sid m sp j) = true) pre ->
  slice_drift data template sid m sp i = Raise e ->
  stack_loop data template sid m sp (pre ++ i :: post) acc = Raise e.
Proof.
  intros Hpre Hi. revert acc.
  induction Hpre as [|j pre Hj Hpre IH]; intros acc; simpl.
  - unfold slice_drift in Hi.
    destruct (stack_slice data sid i) as [sl|]; simpl in *; [|congruence].
    by rewrite Hi.
  - unfold slice_drift in Hj.
    destruct (stack_slice data sid j) as [sl|]; simpl in *; [|done].
    destruct (template_matching sl template m sp); simpl in *; [|done].
    apply IH.
Qed.

Lemma template_matching_stack_Ok data template sid m sp ds :
  template_matching_stack data template sid m sp = Ok ds <->
  exists n, tuple_getitem (shape data) sid = Ok n /\
    Forall2 (fun i d => slice_drift data template sid m sp i = Ok d)
            (seqZ 0 n) ds.
Proof.
  unfold template_matching_stack. split.
  - intros (n & Hn & Hloop)%bind_Ok_inv.
    apply stack_loop_Ok in Hloop as (new & -> & Hnew). by exists n.
  - intros (n & -> & Hds). simpl. apply stack_loop_Ok. by exists ds.
Qed.

End StackFacts.

(** * The claims *)

(** C2, an instance: the peak in the middle of a 3 x 3 surface. *)
Lemma subpixel_peak_log_parabola_witness :
  subpixel_peak (1, 1) Ex.peak_inside
  = Ok (x_refined 1 (SLit 2) (SLit 9) (SLit 5),
        y_refined 1 (SLit 3) (SLit 9) (SLit 4)).
Proof.
  apply (subpixel_peak_log_parabola Ex.peak_inside 1 1).
  - split; [repeat constructor; lia | reflexivity].
  - exists 3, 3. split; [reflexivity | lia].
  - reflexivity.
  - reflexivity.
  - reflexivity.
  - reflexivity.
  - reflexivity.
  - reflexivity.
  - reflexivity.
  - reflexivity.
  - reflexivity.
  - reflexivity.
Defined.

(** C4.  A peak on the border of the surface, and a peak beside a score that
    is not positive: [subpixel_peak] raises in neither case.  For the peak
    [(0, 1)] in the first row, [results[x - 1, y]] is [results[-1, 1]], the
    score 7 of the last row, and the refined position is computed from it;
    beside a zero score, the logarithm of zero enters the result.  Both
    happen at once when TM_SQDIFF finds the template in the top-left corner
    of a slice: the least score is an exact zero at the location (0, 0), and
    a refined displacement is returned. *)
Theorem subpixel_peak_border_unguarded :
  (on_border Ex.peak_on_edge 0 1 /\
   subpixel_peak (0, 1) Ex.peak_on_edge
   = Ok (x_refined 0 (SLit 7) (SLit 9) (SLit 8),
         y_refined 1 (SLit 5) (SLit 9) (SLit 5))) /\
  (~ positive (SLit 0) /\
   subpixel_peak (1, 1) Ex.zero_beside
   = Ok (x_refined 1 (SLit 0) (SLit 9) (SLit 5),
         y_refined 1 (SLit 3) (SLit 9) (SLit 4))) /\
  (exists p, template_matching Ex.flipped Ex.pixel4 "cv.TM_SQDIFF" true
             = Ok (SubLoc p)).
Proof.
  repeat split.
  - exists 3, 3. split; [reflexivity | lia].
  - intros Hp. vm_compute in Hp. discriminate.
  - eexists. vm_compute. reflexivity.
Qed.

(** C3.  The claim fails for the stack axis -1, which numpy accepts as the
    last axis: [data.shape[-1]] counts the slices along axis 2, but
    [slicebase.insert(-1, i)] puts the index before the last subscript, so
    the slice matched is [data[:, i, :]], along axis 1.  On the stack
    [Ex2.rows3] of shape (1, 3, 2) the call returns two displacements, those
    of [[4, 1]] and [[2, 3]]; the second slice along the last axis is
    [[1, 3, 4]], and its displacement is (2, 0), not (1, 0). *)
Theorem template_matching_stack_negative_axis :
  tuple_getitem (shape Ex2.rows3) (PInt (-1)) = Ok 2 /\
  template_matching_stack Ex2.rows3 Ex.pixel4 (PInt (-1)) "cv.TM_SQDIFF" false
  = Ok [IntLoc (0, 0); IntLoc (1, 0)] /\
  stack_slice Ex2.rows3 (PInt (-1)) 1 = take_axis Ex2.rows3 1 1 /\
  take_axis Ex2.rows3 1 1 = Ok (Ex.ints [1; 2] [2; 3]) /\
  take_axis Ex2.rows3 2 1 = Ok (Ex.ints [1; 3] [1; 3; 4]) /\
  template_matching (Ex.ints [1; 3] [1; 3; 4]) Ex.pixel4 "cv.TM_SQDIFF" false
  = Ok (IntLoc (2, 0)).
Proof. repeat split; reflexivity. Qed.




(** C6, as stated, fails: the 2 x 2 template is larger than the 1 x 1 slices
    along both axes, and the stack computation raises nothing.  OpenCV
    exchanges the image and the template in that case, so each slice is
    searched for in the template, and a drift series is returned. *)
Lemma larger_template_accepted :
  template_matching_stack Ex.stack_small Ex.templ_2x2 (PInt 0) "cv.TM_SQDIFF" false
  = Ok [IntLoc (0, 0); IntLoc (1, 0)].
Proof. reflexivity. Qed.

(** C6, amended.  For a stack with at least one slice along a valid stack
    axis, a 2-D template that is larger than the slices along one axis and
    smaller along the other, and a method string that evaluates to an
    integer: the stack computation raises OpenCV's error (the module has no
    shape check and no ShapeError of its own), and it does so at the first
    slice, so no drift series, partial or not, is returned. *)
Theorem mixed_template_raises
    {F : Type} {FO : FloatOps F} {PE : PyEval}
    (data template : ndarray F) (k n0 n1 n2 h w code : Z)
    (method : string) (subpixel : bool) :
  wf data -> shape data = [n0; n1; n2] ->
  0 <= k <= 2 -> 1 <= axis_len n0 n1 n2 k ->
  shape template = [h; w] ->
  ((slice_shape n0 n1 n2 k).1 < h /\ w < (slice_shape n0 n1 n2 k).2) \/
  (h < (slice_shape n0 n1 n2 k).1 /\ (slice_shape n0 n1 n2 k).2 < w) ->
  py_eval method = Ok (PInt code) ->
  template_matching_stack (CV := cv2_ref) data template (PInt k) method subpixel
  = Raise CvError.
Proof.
  intros Hwf Hs Hk Hn Ht Hmixed He.
  unfold template_matching_stack. rewrite Hs.
  assert (Hget : tuple_getitem [n0; n1; n2] (PInt k)
                 = Ok (axis_len n0 n1 n2 k)).
  { unfold tuple_getitem, axis_len. rewrite norm_index_in by (simpl; lia). simpl.
    destruct (bool_decide_reflect (k = 0)) as [->|]; [done|].
    destruct (bool_decide_reflect (k = 1)) as [->|]; [done|].
    by replace k with 2 by lia. }
  rewrite Hget. simpl.
  rewrite seqZ_cons by lia.
  apply (stack_loop_Raise (CV := cv2_ref) data template (PInt k) method subpixel
           [] 0 _ [] CvError); [constructor|].
  unfold slice_drift, stack_slice.
  replace (insert_pos 2 k) with k
    by (unfold insert_pos; rewrite bool_decide_false by lia; lia).
  destruct (take_axis_Ok data n0 n1 n2 k 0 Hwf Hs Hk) as (sl & -> & Hwfsl & Hshsl).
  { unfold axis_len in Hn. repeat case_bool_decide; lia. }
  simpl. unfold template_matching. rewrite He. simpl. rewrite Ht. simpl.
  rewrite (matchTemplate_ref_mixed _ _ code
             (slice_shape n0 n1 n2 k).1 (slice_shape n0 n1 n2 k).2 h w);
    [done | | done | done].
  simpl. rewrite Hshsl. unfold slice_shape. by repeat destruct (bool_decide _).
Qed.

(** C6 amended, an instance: a 3 x 1 template on 2 x 2 slices. *)
Lemma mixed_template_raises_witness :
  template_matching_stack Ex.stack2 Ex.templ_3x1 (PInt 0) "cv.TM_SQDIFF" false
  = Raise CvError.
Proof.
  apply (mixed_template_raises Ex.stack2 Ex.templ_3x1 0 2 2 2 3 1 0).
  - split; [repeat constructor; lia | reflexivity].
  - reflexivity.
  - lia.
  - vm_compute. discriminate.
  - reflexivity.
  - left. vm_compute. split; reflexivity.
  - reflexivity.
Defined.

(** C7.  The bounds that [guess_templatedata] computes for an axis of extent
    [dim] are the floors of [dim * 2/5] and [dim * 3/5]: the function is the
    one that hands [ROI] these bounds for the two spatial axes. *)
Theorem guess_templatedata_floor {DS F : Type} {DO : DataSetOps DS F}
    (data : DS) (xAxisID yAxisID : Z) :
  guess_templatedata data xAxisID yAxisID
  = guess_templatedata_spec data xAxisID yAxisID
  /\ forall dim, template_limits dim = central_region dim.
Proof.
  assert (Hlim : forall dim, template_limits dim = central_region dim).
  { intros dim. unfold template_limits, central_region, Qfloor, Qmult. simpl.
    reflexivity. }
  split; [|done].
  unfold guess_templatedata, guess_templatedata_spec, limitlist.
  destruct (py_assert _); [cbn [Py.bind]|done].
  destruct (get_axis_index data (PInt xAxisID)) as [x|]; [cbn [Py.bind]|done].
  destruct (get_axis_index data (PInt yAxisID)) as [y|]; [cbn [Py.bind]|done].
  destruct (tuple_getitem (ds_shape data) (PInt x)) as [sx|]; [cbn [Py.bind]|done].
  destruct (tuple_getitem (ds_shape data) (PInt y)) as [sy|]; [cbn [Py.bind]|done].
  cbn [fst snd]. by rewrite !Hlim.
Qed.

(** ** The constructor *)

Section InitFacts.
Context {DS F : Type} {FO : FloatOps F} {CV : Cv2 F} {PE : PyEval}
        {DO : DataSetOps DS F}.

(** A constructed object: its attributes are those of lines 18-47, and
    its drift is the outcome of the call of line 50. *)
Lemma Drift_init_Ok_inv data template sid x y sp m (d : Drift DS F) :
  Drift_init data template sid x y sp m = Ok d ->
  exists field,
    init_attributes data template sid x y
    = Ok (Some (self_data d, self_template d)) /\
    get_datafield (self_data d) 0 = Ok field /\
    template_matching_stack field (self_template d) sid default_method true
    = Ok (self_drift d).
Proof.
  unfold Drift_init. intros (attrs & Hattrs & Hd)%bind_Ok_inv.
  destruct attrs as [[sd st]|]; [|discriminate].
  apply bind_Ok_inv in Hd as (field & Hfield & Hd).
  apply bind_Ok_inv in Hd as (drift & Hdrift & [= <-]).
  by exists field.
Qed.

(** [template_matching_stack] takes the stack axis as an index only. *)
Lemma template_matching_stack_axis (data template : ndarray F) sid m sp :
  is_ok (template_matching_stack data template sid m sp) = true ->
  exists z, sid = PInt z /\
    - Z.of_nat (length (shape data)) <= z < Z.of_nat (length (shape data)).
Proof.
  unfold template_matching_stack.
  destruct (tuple_getitem (shape data) sid) as [n|] eqn:Hn; [|done].
  intros _. destruct sid as [|z|s]; try discriminate.
  exists z. split; [done|]. simpl in Hn.
  destruct (norm_index _ z) eqn:Hz; [|done].
  by eapply norm_index_Ok_range.
Qed.

Lemma template_matching_stack_not_index (data template : ndarray F) sid m sp :
  sid = PNone \/ (exists s, sid = PStr s) ->
  template_matching_stack data template sid m sp = Raise TypeError.
Proof. by intros [->|[s ->]]. Qed.

End InitFacts.

(** C9.  The constructor does not pass on [subpixel] and [method]: its
    outcome is the same for all their values, and the drift of a constructed
    object is what [template_matching_stack] computes with its own defaults,
    the method ['cv.TM_CCOEFF_NORMED'] and [subpixel = True]. *)
Theorem Drift_init_uses_defaults
    {DS F : Type} {FO : FloatOps F} {CV : Cv2 F} {PE : PyEval}
    {DO : DataSetOps DS F}
    (data template : option DS) (stackAxisID xAxisID yAxisID : value)
    (subpixel : bool) (method : string) :
  (forall subpixel' method',
     Drift_init data template stackAxisID xAxisID yAxisID subpixel method
     = Drift_init data template stackAxisID xAxisID yAxisID subpixel' method') /\
  (forall d : Drift DS F,
     Drift_init data template stackAxisID xAxisID yAxisID subpixel method = Ok d ->
     exists field,
       get_datafield (self_data d) 0 = Ok field /\
       template_matching_stack field (self_template d) stackAxisID
         "cv.TM_CCOEFF_NORMED" true = Ok (self_drift d)).
Proof.
  split; [reflexivity|].
  intros d (field & _ & Hfield & Hdrift)%Drift_init_Ok_inv. by exists field.
Qed.

(** C9, an instance: the constructor called with [subpixel = False] and the
    method ['cv.TM_SQDIFF']. *)
Lemma Drift_init_uses_defaults_witness :
  exists d field,
    built_by_index = Ok d /\
    get_datafield (self_data d) 0 = Ok field /\
    template_matching_stack field (self_template d) (PInt 0)
      "cv.TM_CCOEFF_NORMED" true = Ok (self_drift d).
Proof.
  destruct built_by_index as [d|e] eqn:Hd; [|vm_compute in Hd; discriminate].
  destruct (proj2 (Drift_init_uses_defaults (Some Toy.frames) (Some Toy.patch)
                     (PInt 0) PNone PNone false "cv.TM_SQDIFF") d Hd)
    as (field & Hfield & Hdrift).
  by exists d, field.
Defined.

(** C10.  The constructor hands [template_matching_stack] the argument
    [stackAxisID] as it received it, not the index it looked up.  So a
    constructed object has an integer [stackAxisID] that is a valid index
    into the shape of the stack; and for [stackAxisID = None] (the default)
    or a string label, once the attributes are set (the axis lookup
    included) and the data field is read, the construction fails with
    TypeError. *)
Theorem Drift_init_raw_stack_axis
    {DS F : Type} {FO : FloatOps F} {CV : Cv2 F} {PE : PyEval}
    {DO : DataSetOps DS F}
    (data template : option DS) (stackAxisID xAxisID yAxisID : value)
    (subpixel : bool) (method : string) :
  (forall d : Drift DS F,
     Drift_init data template stackAxisID xAxisID yAxisID subpixel method = Ok d ->
     exists z field,
       stackAxisID = PInt z /\
       get_datafield (self_data d) 0 = Ok field /\
       - Z.of_nat (length (shape field)) <= z < Z.of_nat (length (shape field))) /\
  (forall sd st field,
     stackAxisID = PNone \/ (exists s, stackAxisID = PStr s) ->
     init_attributes data template stackAxisID xAxisID yAxisID
     = Ok (Some (sd, st)) ->
     get_datafield sd 0 = Ok field ->
     Drift_init data template stackAxisID xAxisID yAxisID subpixel method
     = Raise TypeError).
Proof.
  split.
  - intros d (field & _ & Hfield & Hdrift)%Drift_init_Ok_inv.
    destruct (template_matching_stack_axis field (self_template d) stackAxisID
                default_method true) as (z & -> & Hz); [by rewrite Hdrift|].
    by exists z, field.
  - intros sd st field Hsid Hattrs Hfield. unfold Drift_init.
    rewrite Hattrs. simpl. rewrite Hfield. simpl.
    by rewrite template_matching_stack_not_index.
Qed.

(** C10, two instances: the stack axis as the index 0, and left to its
    default, for which the lookup of ['delay'] gives 0. *)
Lemma Drift_init_raw_stack_axis_witness :
  (exists d z field,
     built_by_index = Ok d /\ PInt 0 = PInt z /\
     get_datafield (self_data d) 0 = Ok field /\
     - Z.of_nat (length (shape field)) <= z < Z.of_nat (length (shape field))) /\
  (get_axis_index Toy.frames (axis_or PNone "delay") = Ok 0 /\
   built_by_default = Raise TypeError).
Proof.
  split.
  - destruct built_by_index as [d|e] eqn:Hd; [|vm_compute in Hd; discriminate].
    destruct (proj1 (Drift_init_raw_stack_axis (Some Toy.frames) (Some Toy.patch)
                       (PInt 0) PNone PNone false "cv.TM_SQDIFF") d Hd)
      as (z & field & Hz & Hfield & Hrange).
    by exists d, z, field.
  - split; [reflexivity|].
    apply (proj2 (Drift_init_raw_stack_axis (Some Toy.frames) (Some Toy.patch)
                    PNone PNone PNone false "cv.TM_SQDIFF")
             Toy.frames (Toy.field Toy.patch) (Toy.field Toy.frames)).
    + by left.
    + reflexivity.
    + reflexivity.
Defined.

(** ** The integer peak *)




(** ** The routines over a store *)

Section StoreFacts.
Context {F : Type} {FO : FloatOps F} {CV : Cv2 F} {PE : PyEval}
        {PES : PyEvalSt F}.
Implicit Types h k : list (ndarray F).
Implicit Types r : aref.




Lemma st_bind_Ok {A B} (c : St A) (f : A -> St B) h a h1 :
  c h = (Ok a, h1) -> st_bind c f h = f a h1.
Proof. intros Hc. unfold st_bind. by rewrite Hc. Qed.

Lemma st_bind_Raise {A B} (c : St A) (f : A -> St B) h e h1 :
  c h = (Raise e, h1) -> st_bind c f h = (Raise e, h1).
Proof. intros Hc. unfold st_bind. by rewrite Hc. Qed.













End StoreFacts.




(** * Further properties of the module *)

(** ** subpixel_peak: when it returns *)

Section SubpixelEdges.
Context {F : Type} {FO : FloatOps F}.
Implicit Types S : ndarray F.

(** On a well-formed 2-D array a subscript succeeds for every index that is
    in range or wraps. *)
Lemma getitem2_is_Ok S n0 n1 i j :
  wf S -> shape S = [n0; n1] -> - n0 <= i < n0 -> - n1 <= j < n1 ->
  exists v, getitem2 S i j = Ok v.
Proof.
  intros Hwf Hs Hi Hj.
  destruct (decide (0 <= i)) as [Hi0|Hi0], (decide (0 <= j)) as [Hj0|Hj0].
  - destruct (cell_is_Some S n0 n1 i j) as [v Hv]; [done | done | lia | lia |].
    exists v. by apply getitem2_cell.
  - destruct (cell_is_Some S n0 n1 i (j + n1)) as [v Hv];
      [done | done | lia | lia |].
    exists v. apply (getitem2_wrap_col S n0 n1); [done | lia | done].
  - destruct (cell_is_Some S n0 n1 (i + n0) j) as [v Hv];
      [done | done | lia | lia |].
    exists v. apply (getitem2_wrap_row S n0 n1); [done | lia | done].
  - destruct (cell_is_Some S n0 n1 (i + n0) (j + n1)) as [v Hv];
      [done | done | lia | lia |].
    exists v. apply cell_Some_shape in Hv as (m0 & m1 & Hs' & _ & _ & Hv).
    rewrite Hs in Hs'. injection Hs' as <- <-.
    unfold getitem2. rewrite Hs, !norm_index_wrap by lia. simpl. by rewrite Hv.
Qed.

(** A result of [subpixel_peak] needs the cells after the peak on both
    axes. *)
Lemma subpixel_peak_Ok_inv S x y q :
  subpixel_peak (x, y) S = Ok q ->
  (exists v, getitem2 S (x + 1) y = Ok v) /\
  (exists v, getitem2 S x (y + 1) = Ok v).
Proof.
  unfold subpixel_peak. simpl.
  intros (xa & _ & Hq)%bind_Ok_inv.
  apply bind_Ok_inv in Hq as (xb & Hxb & Hq).
  apply bind_Ok_inv in Hq as (xc & _ & Hq).
  apply bind_Ok_inv in Hq as (xd & _ & Hq).
  apply bind_Ok_inv in Hq as (xe & _ & Hq).
  apply bind_Ok_inv in Hq as (ya & _ & Hq).
  apply bind_Ok_inv in Hq as (yb & Hyb & _).
  split; eauto.
Qed.

End SubpixelEdges.

(** X1.  For a peak that is a cell of a well-formed surface, [subpixel_peak]
    returns a refined position exactly when the peak is neither in the last
    row nor in the last column; in the last row or column it raises
    IndexError.  (In the first row or column it returns: the index -1
    wraps.) *)
Theorem subpixel_peak_returns_iff {F : Type} {FO : FloatOps F}
    (S : ndarray F) (n0 n1 x y : Z) :
  wf S -> shape S = [n0; n1] -> 0 <= x < n0 -> 0 <= y < n1 ->
  (x < n0 - 1 /\ y < n1 - 1 -> exists q, subpixel_peak (x, y) S = Ok q) /\
  (x = n0 - 1 \/ y = n1 - 1 -> subpixel_peak (x, y) S = Raise IndexError).
Proof.
  intros Hwf Hs Hx Hy. split.
  - intros [Hx1 Hy1].
    destruct (getitem2_is_Ok S n0 n1 (x - 1) y) as [l Hl]; [done|done|lia|lia|].
    destruct (getitem2_is_Ok S n0 n1 (x + 1) y) as [r Hr]; [done|done|lia|lia|].
    destruct (getitem2_is_Ok S n0 n1 x y) as [c Hc]; [done|done|lia|lia|].
    destruct (getitem2_is_Ok S n0 n1 x (y - 1)) as [u Hu]; [done|done|lia|lia|].
    destruct (getitem2_is_Ok S n0 n1 x (y + 1)) as [d Hd]; [done|done|lia|lia|].
    eexists. by apply subpixel_peak_reads.
  - intros Hlast. destruct (subpixel_peak (x, y) S) as [q|e] eqn:Hq.
    + apply subpixel_peak_Ok_inv in Hq as [[v Hv] [v' Hv']].
      destruct Hlast as [-> | ->].
      * rewrite (getitem2_past_row S n0 n1) in Hv by (done || lia). done.
      * rewrite (getitem2_past_col S n0 n1) in Hv' by (done || lia). done.
    + by rewrite (subpixel_peak_Raise_inv S (x, y) e Hq).
Qed.

(** X1, two instances: the peak (0, 1) of the first row, and the peak
    (2, 1) of the last row of a 3 x 3 surface. *)
Lemma subpixel_peak_returns_iff_witness :
  (exists q, subpixel_peak (0, 1) Ex.peak_on_edge = Ok q) /\
  subpixel_peak (2, 1) Ex.peak_on_edge = Raise IndexError.
Proof.
  assert (Hwf : wf Ex.peak_on_edge)
    by (split; [repeat constructor; lia | reflexivity]).
  split.
  - apply (proj1 (subpixel_peak_returns_iff Ex.peak_on_edge 3 3 0 1
                    Hwf eq_refl ltac:(lia) ltac:(lia))). lia.
  - apply (proj2 (subpixel_peak_returns_iff Ex.peak_on_edge 3 3 2 1
                    Hwf eq_refl ltac:(lia) ltac:(lia))). lia.
Defined.

(** X2.  Whatever the surface and the location, an exception of
    [subpixel_peak] is numpy's IndexError: the function raises no error of
    its own, in particular for scores that are not positive. *)
Theorem subpixel_peak_only_IndexError {F : Type} {FO : FloatOps F}
    (S : ndarray F) (max_var : Z * Z) (e : exn) :
  subpixel_peak max_var S = Raise e -> e = IndexError.
Proof. apply subpixel_peak_Raise_inv. Qed.

(** X2, an instance. *)
Lemma subpixel_peak_only_IndexError_witness :
  subpixel_peak (2, 1) Ex.peak_on_edge = Raise IndexError /\
  IndexError = IndexError.
Proof.
  split; [reflexivity|].
  apply (subpixel_peak_only_IndexError Ex.peak_on_edge (2, 1) IndexError).
  reflexivity.
Defined.

(** ** template_matching: the two modes, and the shape of the template *)

Section ModeFacts.
Context {F : Type} {FO : FloatOps F} {CV : Cv2 F} {PE : PyEval}.
Implicit Types a t S : ndarray F.

Lemma template_matching_modes a t m code S p :
  py_eval m = Ok (PInt code) ->
  matchTemplate (astype f32 a) (astype f32 t) code = Ok S ->
  template_matching a t m false = Ok (IntLoc p) ->
  template_matching a t m true
  = (let! q := subpixel_peak p S in Ok (SubLoc q)).
Proof.
  intros He HS. unfold template_matching. rewrite He. cbn [Py.bind].
  destruct (match shape (astype f32 t) with [_; _] => Ok tt | _ => Raise ValueError end)
    as [[]|]; [|done]. cbn [Py.bind]. rewrite HS. cbn [Py.bind].
  destruct (minMaxLoc S) as [[[[mn mx] lmin] lmax]|]; [|done]. cbn [Py.bind].
  destruct (bool_decide _); by intros [= ->].
Qed.

End ModeFacts.

(** X3.  The refined displacement refines the integer one of the same call:
    if without refinement the location [p] is returned for the surface [S],
    then with refinement the outcome is that of [subpixel_peak] at [p] on
    [S]. *)
Theorem template_matching_refines_integer_peak
    {F : Type} {FO : FloatOps F} {CV : Cv2 F} {PE : PyEval}
    (array template S : ndarray F) (method : string) (code : Z) (p : Z * Z) :
  py_eval method = Ok (PInt code) ->
  matchTemplate (astype f32 array) (astype f32 template) code = Ok S ->
  template_matching array template method false = Ok (IntLoc p) ->
  template_matching array template method true
  = (let! q := subpixel_peak p S in Ok (SubLoc q)).
Proof. apply template_matching_modes. Qed.

(** X4.  The location that OpenCV reports is (column, row), and
    [subpixel_peak] uses its first component on the first axis (the rows):
    when the column of the extremum is not below the number of rows less
    one, the refined call raises IndexError, wherever the extremum is. *)
Theorem template_matching_column_as_row
    {F : Type} {FO : FloatOps F} {CV : Cv2 F} {PE : PyEval}
    (array template S : ndarray F) (method : string) (code n0 n1 x y : Z) :
  py_eval method = Ok (PInt code) ->
  matchTemplate (astype f32 array) (astype f32 template) code = Ok S ->
  shape S = [n0; n1] -> 0 <= n0 ->
  template_matching array template method false = Ok (IntLoc (x, y)) ->
  n0 - 1 <= x ->
  template_matching array template method true = Raise IndexError.
Proof.
  intros He HS Hs Hn0 Hint Hx.
  rewrite (template_matching_modes array template method code S (x, y) He HS Hint).
  destruct (subpixel_peak (x, y) S) as [q|e] eqn:Hq; simpl.
  - apply subpixel_peak_Ok_inv in Hq as [[v Hv] _].
    rewrite (getitem2_past_row S n0 n1) in Hv by (done || lia). done.
  - by rewrite (subpixel_peak_Raise_inv S (x, y) e Hq).
Qed.

(** X3 and X4, an instance: the pixel 4 of the 2 x 4 slice is found at
    column 3 of row 0, and the refined call fails. *)
Lemma template_matching_refines_integer_peak_witness :
  template_matching Ex2.wide Ex.pixel4 "cv.TM_SQDIFF" true
  = (let! q := subpixel_peak (3, 0)
                 (NdArray [2; 4]
                    ((fun rc : Z * Z =>
                        CvRef.score 0 (buf Ex.pixel4)
                          (CvRef.window Ex2.wide rc.1 rc.2 1 1))
                       <$> positions 2 4)) in
     Ok (SubLoc q)).
Proof.
  apply (template_matching_refines_integer_peak Ex2.wide Ex.pixel4 _
           "cv.TM_SQDIFF" 0 (3, 0)); reflexivity.
Defined.

Lemma template_matching_column_as_row_witness :
  template_matching Ex2.wide Ex.pixel4 "cv.TM_SQDIFF" true = Raise IndexError.
Proof.
  apply (template_matching_column_as_row Ex2.wide Ex.pixel4
           (NdArray [2; 4]
              ((fun rc : Z * Z =>
                  CvRef.score 0 (buf Ex.pixel4)
                    (CvRef.window Ex2.wide rc.1 rc.2 1 1))
                 <$> positions 2 4))
           "cv.TM_SQDIFF" 0 2 4 3 0); try reflexivity; lia.
Defined.

(** X5.  A template that is not 2-D is refused before OpenCV is called:
    once the method has been evaluated, the unpacking of the reversed shape
    raises ValueError. *)
Theorem template_matching_template_2d
    {F : Type} {FO : FloatOps F} {CV : Cv2 F} {PE : PyEval}
    (array template : ndarray F) (method : string) (subpixel : bool) (v : value) :
  py_eval method = Ok v -> length (shape template) <> 2%nat ->
  template_matching array template method subpixel = Raise ValueError.
Proof.
  intros He Hsh. unfold template_matching. rewrite He. cbn [Py.bind].
  change (shape (astype f32 template)) with (shape template).
  by destruct (shape template) as [|? [|? [|? ?]]].
Qed.

(** X5, an instance: a 1-D template. *)
Lemma template_matching_template_2d_witness :
  template_matching Ex.bright Ex2.line3 "cv.TM_SQDIFF" false = Raise ValueError.
Proof.
  apply (template_matching_template_2d Ex.bright Ex2.line3 "cv.TM_SQDIFF" false
           (PInt 0)); [reflexivity | discriminate].
Defined.

(** ** The position of a first least score *)

Section FirstMinimum.
Context {F : Type} {FO : FloatOps F} {FOrd : FloatOrder F}.

Lemma mm_step_first n1 (b : list F) k0 v0 k acc v :
  b !! k0 = Some v0 ->
  (forall (j : nat) w, (j < k0)%nat -> b !! j = Some w -> fltb v0 w = true) ->
  (forall (j : nat) w, b !! j = Some w -> fltb w v0 = false) ->
  b !! k = Some v ->
  CvRef.mm_first_inv n1 b k0 v0 k acc ->
  CvRef.mm_first_inv n1 b k0 v0 (S k) (CvRef.mm_step n1 acc k v).
Proof.
  destruct acc as [[[mn mx] lmin] lmax]. simpl.
  intros Hk0 Hbefore Hall Hk [Hle Hgt]. split.
  - intros Hk'. destruct Hle as (j & Hj & Hjk0 & Hmn & Hl); [lia|].
    destruct (fltb v mn).
    + exists k. split; [lia|]. split; [lia|]. done.
    + exists j. split; [lia|]. done.
  - intros Hk'. destruct (decide (k = k0)) as [->|Hne].
    + destruct Hle as (j & Hj & Hjk0 & Hmn & Hl); [lia|].
      rewrite Hk0 in Hk. injection Hk as <-.
      destruct (decide (j = k0)) as [->|Hjne].
      * rewrite Hk0 in Hmn. injection Hmn as <-.
        by rewrite fltb_irrefl.
      * rewrite (Hbefore j mn) by (done || lia). done.
    + destruct Hgt as [-> ->]; [lia|].
      by rewrite (Hall k v).
Qed.

Lemma mm_scan_first n1 (b : list F) k0 v0 l : forall k acc,
  b !! k0 = Some v0 ->
  (forall (j : nat) w, (j < k0)%nat -> b !! j = Some w -> fltb v0 w = true) ->
  (forall (j : nat) w, b !! j = Some w -> fltb w v0 = false) ->
  (forall j : nat, l !! j = b !! (k + j)%nat) ->
  CvRef.mm_first_inv n1 b k0 v0 k acc ->
  CvRef.mm_first_inv n1 b k0 v0 (k + length l) (CvRef.mm_scan n1 acc k l).
Proof.
  induction l as [|v l IH]; intros k acc Hk0 Hbefore Hall Hl Hinv; simpl.
  - by rewrite Nat.add_0_r.
  - replace (k + S (length l))%nat with (S k + length l)%nat by lia.
    apply IH; try done.
    + intros j. specialize (Hl (S j)). simpl in Hl. rewrite Hl. f_equal. lia.
    + apply mm_step_first; try done. specialize (Hl 0%nat). simpl in Hl.
      by rewrite Nat.add_0_r in Hl.
Qed.

(** [minMaxLoc] reports the first least cell as the minimum. *)
Lemma minMaxLoc_ref_first (S : ndarray F) n0 n1 (k0 : nat) v0 :
  shape S = [n0; n1] ->
  buf S !! k0 = Some v0 ->
  (forall (j : nat) w, (j < k0)%nat -> buf S !! j = Some w -> fltb v0 w = true) ->
  (forall (j : nat) w, buf S !! j = Some w -> fltb w v0 = false) ->
  exists mx lmax,
    CvRef.minMaxLoc_ref S
    = Ok (v0, mx, (Z.of_nat k0 `mod` n1, Z.of_nat k0 `div` n1), lmax).
Proof.
  intros Hs Hk0 Hbefore Hall. unfold CvRef.minMaxLoc_ref. rewrite Hs.
  destruct (buf S) as [|v b] eqn:Hb; [by rewrite lookup_nil in Hk0|].
  pose proof (mm_scan_first n1 (v :: b) k0 v0 (v :: b) 0 (v, v, (0, 0), (0, 0))
                Hk0 Hbefore Hall (fun j => eq_refl)) as Hscan.
  destruct (CvRef.mm_scan n1 (v, v, (0, 0), (0, 0)) 0 (v :: b))
    as [[[mn mx] lmin] lmax].
  apply lookup_lt_Some in Hk0 as Hlt.
  destruct Hscan as [_ Hgt].
  - split; [|lia]. intros _. exists 0%nat. split; [lia|]. split; [lia|]. done.
  - destruct Hgt as [-> ->]; [simpl in *; lia|]. by exists mx, lmax.
Qed.

End FirstMinimum.

(** ** Positions and buffers *)

Lemma bind_singleton_fmap {A B} (g : A -> B) (l : list A) :
  l ≫= (fun c => [g c]) = g <$> l.
Proof. induction l as [|x l IH]; [done|]. rewrite bind_cons, IH. done. Qed.

Lemma lookup_bind_rows {A B} (f : A -> list B) (n : nat) (l : list A) :
  (forall x, length (f x) = n) ->
  forall i j : nat, (j < n)%nat ->
    (l ≫= f) !! (i * n + j)%nat = l !! i ≫= fun x => f x !! j.
Proof.
  intros Hlen. induction l as [|x l IH]; intros i j Hj.
  - by rewrite lookup_nil.
  - rewrite bind_cons. destruct i as [|i]; simpl.
    + rewrite lookup_app_l by (rewrite Hlen; lia). done.
    + rewrite lookup_app_r by (rewrite Hlen; lia).
      rewrite Hlen. replace (n + i * n + j - n)%nat with (i * n + j)%nat by lia.
      by apply IH.
Qed.

(** The [k]-th position of an [m0 x m1] array in row-major order. *)
Lemma lookup_positions (m0 m1 : Z) (k : nat) :
  Z.of_nat k < m0 * m1 -> 0 < m1 ->
  positions m0 m1 !! k = Some (Z.of_nat k `div` m1, Z.of_nat k `mod` m1).
Proof.
  intros Hk Hm1. unfold positions.
  pose proof (Z.mod_pos_bound (Z.of_nat k) m1 Hm1) as Hmod.
  pose proof (Z.div_mod (Z.of_nat k) m1 ltac:(lia)) as Hdm.
  assert (0 <= Z.of_nat k `div` m1 < m0) as Hdiv.
  { split; [apply Z.div_pos; lia|]. apply Z.div_lt_upper_bound; nia. }
  replace k with (Z.to_nat (Z.of_nat k `div` m1) * Z.to_nat m1
                  + Z.to_nat (Z.of_nat k `mod` m1))%nat at 1 by nia.
  rewrite (lookup_bind_rows _ (Z.to_nat m1)).
  - rewrite lookup_seqZ_lt by lia. simpl.
    rewrite bind_singleton_fmap, list_lookup_fmap, lookup_seqZ_lt by lia.
    simpl. f_equal. f_equal; lia.
  - intros r. by rewrite bind_singleton_fmap, length_fmap, length_seqZ.
  - lia.
Qed.

Lemma lookup_positions_cell (m0 m1 r c : Z) :
  0 <= r < m0 -> 0 <= c < m1 ->
  positions m0 m1 !! Z.to_nat (r * m1 + c) = Some (r, c).
Proof.
  intros Hr Hc. pose proof (offset_bound r c m0 m1 Hr Hc).
  rewrite lookup_positions by lia. rewrite Z2Nat.id by lia.
  f_equal. f_equal.
  - symmetry. apply (Z.div_unique _ _ r c); lia.
  - symmetry. apply (Z.mod_unique _ _ r c); lia.
Qed.

Lemma fmap_eq_Forall {A B} (f g : A -> B) (l : list A) :
  f <$> l = g <$> l <-> Forall (fun x => f x = g x) l.
Proof.
  induction l as [|x l IH]; simpl.
  - split; [constructor | done].
  - rewrite Forall_cons. split.
    + intros [= Hx Hl]. split; [done | by apply IH].
    + intros [Hx Hl]. f_equal; [done | by apply IH].
Qed.

Section BufferFacts.
Context {F : Type}.
Implicit Types a t : ndarray F.

(** The buffer of a 2-D array lists its cells in the order of [positions]. *)
Lemma buf_positions a n0 n1 (dflt : F) :
  wf a -> shape a = [n0; n1] -> 1 <= n1 ->
  buf a = (fun rc : Z * Z => default dflt (cell a rc.1 rc.2)) <$> positions n0 n1.
Proof.
  intros Hwf Hs Hn1. destruct (Hwf) as [Hnn Hlen].
  rewrite Hs in Hnn, Hlen. simpl in Hlen.
  assert (0 <= n0) by (by inversion Hnn).
  apply list_eq. intros k. rewrite list_lookup_fmap.
  destruct (decide (Z.of_nat k < n0 * n1)) as [Hk|Hk].
  - rewrite lookup_positions by lia. simpl.
    destruct (lookup_lt_is_Some_2 (buf a) k ltac:(lia)) as [v Hv].
    rewrite Hv. by rewrite (cell_of_index a n0 n1 k v).
  - rewrite lookup_ge_None_2 by lia.
    rewrite lookup_ge_None_2; [done|].
    pose proof (length_positions n0 n1 ltac:(lia) ltac:(lia)). lia.
Qed.

End BufferFacts.

(** ** Squared differences of 8-bit data *)

Lemma in_f32_small (z : Z) : Z.abs z <= f32_exact_max -> in_f32 z = Some z.
Proof. intros Hz. unfold in_f32. by rewrite bool_decide_true. Qed.

Lemma sym_f32_pixel8 (v : sym) : pixel8 v -> sym_f32 v = v.
Proof.
  intros (z & -> & Hz). simpl. unfold round_f32.
  rewrite bool_decide_true; [done|]. unfold f32_exact_max. lia.
Qed.

Lemma astype_f32_pixels8 (a : ndarray sym) : pixels8 a -> astype f32 a = a.
Proof.
  destruct a as [sh b]. unfold pixels8, astype. simpl. intros Hb. f_equal.
  induction Hb as [|v b Hv Hb IH]; [done|].
  rewrite fmap_cons. f_equal; [by apply sym_f32_pixel8 | exact IH].
Qed.

Lemma exact_sqdiff_from (tv iv : list sym) :
  Forall pixel8 tv -> Forall pixel8 iv -> length tv = length iv ->
  forall (acc : sym) (z0 : Z),
    exact acc = Some z0 -> 0 <= z0 ->
    z0 + 65025 * Z.of_nat (length tv) <= f32_exact_max ->
    exists s,
      exact (foldl fadd acc
               (zip_with (fun t i => fmul (fsub t i) (fsub t i)) tv iv)) = Some s /\
      z0 <= s /\ (s = z0 <-> tv = iv).
Proof.
  intros Ht. revert iv.
  induction Ht as [|t tv (zt & -> & Hzt) Ht IH];
    intros iv Hi Hlen acc z0 Hacc Hz0 Hbound.
  - destruct iv; [|done]. exists z0. simpl. split; [done|]. split; [lia|done].
  - destruct Hi as [|i iv (zi & -> & Hzi) Hi]; [done|]. simpl in Hlen.
    assert (Hsq : 0 <= (zt - zi) * (zt - zi) <= 65025).
    { assert (- 255 <= zt - zi <= 255) as Hd by lia.
      remember (zt - zi) as d eqn:Ed. clear - Hd.
      assert (0 <= (255 - d) * (255 + d)) by (apply Z.mul_nonneg_nonneg; lia).
      pose proof (Z.square_nonneg d). nia. }
    rewrite length_cons, Nat2Z.inj_succ in Hbound. unfold f32_exact_max in *.
    destruct (IH iv Hi ltac:(lia)
                (SAdd acc (SMul (SSub (SLit zt) (SLit zi)) (SSub (SLit zt) (SLit zi))))
                (z0 + (zt - zi) * (zt - zi)))
      as (s & Hs & Hle & Heq).
    { simpl. rewrite Hacc. simpl.
      rewrite (in_f32_small (zt - zi)) by (unfold f32_exact_max; lia). simpl.
      rewrite (in_f32_small ((zt - zi) * (zt - zi)))
        by (unfold f32_exact_max; lia).
      simpl. apply in_f32_small. unfold f32_exact_max. lia. }
    { lia. }
    { lia. }
    exists s. split; [exact Hs|]. split; [lia|]. split.
    + intros ->. assert (zt = zi) as -> by nia.
      f_equal. apply Heq. lia.
    + intros [= -> Hiv]. apply Heq in Hiv as ->. lia.
Qed.

(** The squared-difference score of at most 256 pixels of 8-bit data is
    exact, it is not negative, and it is zero exactly when the window is the
    template. *)
Lemma exact_sqdiff (tv iv : list sym) :
  Forall pixel8 tv -> Forall pixel8 iv -> length tv = length iv ->
  Z.of_nat (length tv) <= 256 ->
  exists s, exact (CvRef.sqdiff tv iv) = Some s /\ 0 <= s /\ (s = 0 <-> tv = iv).
Proof.
  intros Ht Hi Hlen Hn.
  apply (exact_sqdiff_from tv iv Ht Hi Hlen (SLit 0) 0); [done | lia |].
  unfold f32_exact_max. lia.
Qed.

(** ** Matching by squared differences on 8-bit data *)

Section WindowFacts.
Context {F : Type} {FO : FloatOps F}.
Implicit Types a t : ndarray F.

Lemma length_window a r c h w :
  0 <= h -> 0 <= w -> Z.of_nat (length (CvRef.window a r c h w)) = h * w.
Proof.
  intros Hh Hw. unfold CvRef.window. by rewrite length_fmap, length_positions.
Qed.

(** The window at row [r], column [c] is the template exactly when the
    template occurs there. *)
Lemma window_occurs a t H W h w r c :
  wf a -> wf t -> shape a = [H; W] -> shape t = [h; w] ->
  1 <= h -> 1 <= w -> 0 <= r <= H - h -> 0 <= c <= W - w ->
  CvRef.window a r c h w = buf t <-> occurs_at a t c r.
Proof.
  intros Hwfa Hwft Ha Ht Hh Hw Hr Hc.
  rewrite (buf_positions t h w (of_int 0)) by (done || lia).
  unfold CvRef.window. rewrite fmap_eq_Forall, Forall_forall. split.
  - intros Hall dr dc v Hv.
    apply cell_Some_shape in Hv as Hv'.
    destruct Hv' as (h' & w' & Ht' & Hdr & Hdc & _).
    rewrite Ht in Ht'. injection Ht' as <- <-.
    specialize (Hall (dr, dc)). simpl in Hall.
    rewrite Hv in Hall. simpl in Hall.
    destruct (cell_is_Some a H W (r + dr) (c + dc)) as [u Hu];
      [done | done | lia | lia |].
    rewrite Hu in Hall |- *. simpl in Hall. f_equal. apply Hall.
    apply elem_of_positions. lia.
  - intros Hocc [dr dc] [Hdr Hdc]%elem_of_positions. simpl.
    destruct (cell_is_Some t h w dr dc) as [v Hv]; [done | done | lia | lia |].
    by rewrite Hv, (Hocc dr dc v Hv).
Qed.

(** The surface of a template that fits into the image. *)
Lemma matchTemplate_ref_fits a t m H W h w :
  shape a = [H; W] -> shape t = [h; w] ->
  Cv.TM_SQDIFF <= m <= Cv.TM_CCOEFF_NORMED ->
  1 <= h <= H -> 1 <= w <= W ->
  CvRef.matchTemplate_ref a t m
  = Ok (NdArray [H - h + 1; W - w + 1]
          ((fun rc : Z * Z => CvRef.score m (buf t) (CvRef.window a rc.1 rc.2 h w))
             <$> positions (H - h + 1) (W - w + 1))).
Proof.
  intros Ha Ht Hm Hh Hw. unfold CvRef.matchTemplate_ref. rewrite Ha, Ht.
  rewrite bool_decide_true by done.
  rewrite bool_decide_false by lia. simpl.
  by rewrite bool_decide_true by lia.
Qed.

End WindowFacts.

Lemma window_pixels8 (a : ndarray sym) r c h w :
  pixels8 a -> Forall pixel8 (CvRef.window a r c h w).
Proof.
  intros Ha. unfold CvRef.window. apply Forall_fmap, Forall_forall.
  intros [dr dc] _. simpl.
  destruct (cell a (r + dr) (c + dc)) as [v|] eqn:Hv; simpl;
    [|exists 0; split; [done | lia]].
  apply cell_Some_shape in Hv as (n0 & n1 & _ & _ & _ & Hv).
  unfold pixels8 in Ha. rewrite Forall_lookup in Ha. by eapply Ha.
Qed.

(** The score of a window of 8-bit data against an 8-bit template of at
    most 256 pixels. *)
Lemma exact_window_score (a t : ndarray sym) H W h w r c :
  wf a -> wf t -> pixels8 a -> pixels8 t ->
  shape a = [H; W] -> shape t = [h; w] ->
  1 <= h -> 1 <= w -> h * w <= 256 -> 0 <= r <= H - h -> 0 <= c <= W - w ->
  exists s,
    exact (CvRef.score Cv.TM_SQDIFF (buf t) (CvRef.window a r c h w)) = Some s /\
    0 <= s /\ (s = 0 <-> occurs_at a t c r).
Proof.
  intros Hwfa Hwft Hia Hit Ha Ht Hh Hw Hhw Hr Hc.
  assert (Hlen : Z.of_nat (length (buf t)) = h * w).
  { destruct Hwft as [_ Hlen]. rewrite Ht in Hlen. simpl in Hlen. lia. }
  destruct (exact_sqdiff (buf t) (CvRef.window a r c h w)) as (s & Hs & Hle & Heq).
  - done.
  - by apply window_pixels8.
  - pose proof (length_window a r c h w ltac:(lia) ltac:(lia)). lia.
  - lia.
  - exists s. split; [exact Hs|]. split; [done|].
    rewrite Heq, <- (window_occurs a t H W h w r c) by done.
    split; congruence.
Qed.

(** X15.  With TM_SQDIFF, the reference formulas of OpenCV and the symbolic
    float32 arithmetic, on a slice and a template of 8-bit pixel values (the
    template has at most 256 pixels and fits into the slice, so every score
    is an exact integer below 2^24): if the slice contains the template at
    the shift [(dx, dy)] and at no earlier position in row-major order, the
    displacement returned is exactly [(dx, dy)]. *)
Theorem template_matching_sqdiff_first {PE : PyEval}
    (a t : ndarray sym) (H W h w dx dy : Z) (method : string) :
  wf a -> wf t -> pixels8 a -> pixels8 t ->
  shape a = [H; W] -> shape t = [h; w] -> 1 <= h -> 1 <= w -> h * w <= 256 ->
  0 <= dx <= W - w -> 0 <= dy <= H - h ->
  py_eval method = Ok (PInt Cv.TM_SQDIFF) ->
  occurs_at a t dx dy ->
  (forall dx' dy', 0 <= dx' <= W - w -> 0 <= dy' <= H - h ->
     dy' < dy \/ (dy' = dy /\ dx' < dx) -> ~ occurs_at a t dx' dy') ->
  template_matching a t method false = Ok (IntLoc (dx, dy)).
Proof.
  intros Hwfa Hwft Hia Hit Ha Ht Hh Hw Hhw Hdx Hdy He Hocc Hfirst.
  unfold template_matching. rewrite He.
  rewrite !astype_f32_pixels8 by done. rewrite Ht. cbn [Py.bind].
  change (matchTemplate a t Cv.TM_SQDIFF)
    with (CvRef.matchTemplate_ref a t Cv.TM_SQDIFF).
  rewrite (matchTemplate_ref_fits a t _ H W h w) by (done || lia).
  cbn [Py.bind].
  set (n0 := H - h + 1). set (n1 := W - w + 1).
  set (sc := fun rc : Z * Z =>
               CvRef.score Cv.TM_SQDIFF (buf t) (CvRef.window a rc.1 rc.2 h w)).
  set (S := NdArray [n0; n1] (sc <$> positions n0 n1)).
  assert (Hcells : forall (j : nat) v, buf S !! j = Some v ->
            Z.of_nat j < n0 * n1 /\
            v = sc (Z.of_nat j `div` n1, Z.of_nat j `mod` n1) /\
            0 <= Z.of_nat j `div` n1 < n0 /\ 0 <= Z.of_nat j `mod` n1 < n1).
  { intros j v Hv. simpl in Hv.
    assert (Z.of_nat j < n0 * n1) as Hj.
    { apply lookup_lt_Some in Hv. rewrite length_fmap in Hv.
      pose proof (length_positions n0 n1 ltac:(lia) ltac:(lia)). lia. }
    rewrite list_lookup_fmap, lookup_positions in Hv by lia.
    injection Hv as <-. split; [done|]. split; [done|].
    pose proof (Z.mod_pos_bound (Z.of_nat j) n1 ltac:(lia)).
    split; [|done].
    split; [apply Z.div_pos; lia | apply Z.div_lt_upper_bound; nia]. }
  destruct (exact_window_score a t H W h w dy dx) as (s0 & Hs0 & _ & Hz0);
    try done.
  assert (s0 = 0) as -> by (by apply Hz0). clear Hz0.
  pose proof (offset_bound dy dx n0 n1 ltac:(lia) ltac:(lia)) as Hk0.
  destruct (minMaxLoc_ref_first S n0 n1 (Z.to_nat (dy * n1 + dx)) (sc (dy, dx)))
    as (mx & lmax & Hmm).
  - done.
  - simpl. by rewrite list_lookup_fmap, lookup_positions_cell by lia.
  - intros j v Hj Hv. apply Hcells in Hv as (Hjn & -> & Hq & Hr).
    destruct (exact_window_score a t H W h w
                (Z.of_nat j `div` n1) (Z.of_nat j `mod` n1))
      as (s & Hs & Hle & Hz); try done; try lia.
    simpl. unfold sym_ltb. unfold sc in *. simpl in *. rewrite Hs0, Hs.
    apply bool_decide_eq_true.
    destruct (decide (s = 0)) as [->|]; [|lia].
    exfalso. eapply (Hfirst (Z.of_nat j `mod` n1) (Z.of_nat j `div` n1));
      [lia | lia | | by apply Hz].
    pose proof (Z.div_mod (Z.of_nat j) n1 ltac:(lia)). nia.
  - intros j v Hv. apply Hcells in Hv as (Hjn & -> & Hq & Hr).
    destruct (exact_window_score a t H W h w
                (Z.of_nat j `div` n1) (Z.of_nat j `mod` n1))
      as (s & Hs & Hle & Hz); try done; try lia.
    simpl. unfold sym_ltb. unfold sc in *. simpl in *. rewrite Hs0, Hs.
    apply bool_decide_eq_false. lia.
  - change (minMaxLoc S) with (CvRef.minMaxLoc_ref S). rewrite Hmm.
    cbn [Py.bind]. rewrite bool_decide_true by (by left).
    rewrite Z2Nat.id by lia. do 3 f_equal.
    + symmetry. apply (Z.mod_unique _ _ dy dx); lia.
    + symmetry. apply (Z.div_unique _ _ dy dx); lia.
Qed.

(** X15, an instance: the one pixel 4 of the slice [[1, 2], [3, 4]]. *)
Lemma template_matching_sqdiff_first_witness :
  template_matching Ex.corner Ex.pixel4 "cv.TM_SQDIFF" false = Ok (IntLoc (1, 1)).
Proof.
  apply (template_matching_sqdiff_first Ex.corner Ex.pixel4 2 2 1 1).
  - split; [repeat constructor; lia | reflexivity].
  - split; [repeat constructor; lia | reflexivity].
  - repeat constructor; eexists; (split; [reflexivity | lia]).
  - repeat constructor; eexists; (split; [reflexivity | lia]).
  - reflexivity.
  - reflexivity.
  - lia.
  - lia.
  - lia.
  - lia.
  - lia.
  - reflexivity.
  - intros r c v Hv.
    apply cell_Some_shape in Hv as (n0 & n1 & [= <- <-] & Hr & Hc & Hv).
    assert (r = 0) as -> by lia. assert (c = 0) as -> by lia.
    simpl in Hv. injection Hv as <-. reflexivity.
  - intros dx' dy' Hdx Hdy Hearlier Hocc.
    specialize (Hocc 0 0 (SLit 4) eq_refl).
    assert ((dx' = 0 /\ dy' = 0) \/ (dx' = 1 /\ dy' = 0) \/ (dx' = 0 /\ dy' = 1))
      as [[-> ->]|[[-> ->]|[-> ->]]] by lia; discriminate.
Defined.

(** ** template_matching_stack: empty stacks, failures, negative axes *)

(** X14.  When [template_matching_stack] returns, the list has one element
    per index along the stack axis ([data.shape[stackAxisID]] of them), and
    its [i]-th element is the displacement that [template_matching] computes
    from the [i]-th slice alone: the order of the slices is kept.  For a
    stack axis [k] among 0, 1, 2 the [i]-th slice is the one with index [i]
    along axis [k]. *)
Theorem template_matching_stack_series
    {F : Type} {FO : FloatOps F} {CV : Cv2 F} {PE : PyEval}
    (data template : ndarray F) (stackAxisID : value)
    (method : string) (subpixel : bool) (ds : list (displacement F)) :
  template_matching_stack data template stackAxisID method subpixel = Ok ds ->
  exists n,
    tuple_getitem (shape data) stackAxisID = Ok n /\
    length ds = Z.to_nat n /\
    forall i : nat, (i < length ds)%nat ->
      exists slice_ d,
        stack_slice data stackAxisID (Z.of_nat i) = Ok slice_ /\
        (forall k, stackAxisID = PInt k -> 0 <= k <= 2 ->
                   take_axis data k (Z.of_nat i) = Ok slice_) /\
        template_matching slice_ template method subpixel = Ok d /\
        ds !! i = Some d.
Proof.
  intros (n & Hn & Hall)%template_matching_stack_Ok.
  exists n. split; [done|].
  pose proof (Forall2_length _ _ _ Hall) as Hlen.
  rewrite length_seqZ in Hlen. split; [done|].
  intros i Hi.
  destruct (lookup_lt_is_Some_2 ds i Hi) as [d Hd].
  assert (Hsi : seqZ 0 n !! i = Some (Z.of_nat i)).
  { by rewrite lookup_seqZ_lt by lia. }
  pose proof (Forall2_lookup_lr _ _ _ _ _ _ Hall Hsi Hd) as Hsd.
  apply bind_Ok_inv in Hsd as (sl & Hsl & Htm).
  exists sl, d. repeat split; try done.
  intros k -> Hk. rewrite <- Hsl. simpl. f_equal.
  unfold insert_pos. rewrite bool_decide_false by lia. lia.
Qed.

(** X14, an instance: two 2 x 2 slices, matched against one pixel. *)
Lemma template_matching_stack_series_witness :
  exists n,
    tuple_getitem (shape Ex.stack2) (PInt 0) = Ok n /\
    length Ex.series2 = Z.to_nat n /\
    forall i : nat, (i < length Ex.series2)%nat ->
      exists slice_ d,
        stack_slice Ex.stack2 (PInt 0) (Z.of_nat i) = Ok slice_ /\
        (forall k, PInt 0 = PInt k -> 0 <= k <= 2 ->
                   take_axis Ex.stack2 k (Z.of_nat i) = Ok slice_) /\
        template_matching slice_ Ex.pixel4 "cv.TM_SQDIFF" false = Ok d /\
        Ex.series2 !! i = Some d.
Proof.
  apply (template_matching_stack_series
           Ex.stack2 Ex.pixel4 (PInt 0) "cv.TM_SQDIFF" false).
  vm_compute. reflexivity.
Defined.

Section StackEdges.
Context {F : Type} {FO : FloatOps F} {CV : Cv2 F} {PE : PyEval}.
Implicit Types data template : ndarray F.

Lemma stack_loop_Raise_inv data template sid m sp range : forall acc e,
  stack_loop data template sid m sp range acc = Raise e ->
  exists i, i ∈ range /\ slice_drift data template sid m sp i = Raise e.
Proof.
  induction range as [|i range IH]; intros acc e; simpl; [done|].
  unfold slice_drift in *.
  destruct (stack_slice data sid i) as [sl|e'] eqn:Hsl; simpl.
  - destruct (template_matching sl template m sp) as [d|e''] eqn:Hd; simpl.
    + intros (j & Hj & Hrj)%IH. exists j. split; [by right | done].
    + intros [= ->]. exists i. split; [by left|]. by rewrite Hsl.
  - intros [= ->]. exists i. split; [by left|]. by rewrite Hsl.
Qed.

Lemma tuple_getitem_axis (n0 n1 n2 k : Z) :
  0 <= k <= 2 ->
  tuple_getitem [n0; n1; n2] (PInt k) = Ok (axis_len n0 n1 n2 k).
Proof.
  intros Hk. unfold tuple_getitem, axis_len.
  rewrite norm_index_in by (simpl; lia). simpl.
  destruct (bool_decide_reflect (k = 0)) as [->|]; [done|].
  destruct (bool_decide_reflect (k = 1)) as [->|]; [done|].
  by replace k with 2 by lia.
Qed.

End StackEdges.

(** X6.  A stack without slices along the stack axis gives the empty drift
    series, whatever the template and the method string are: neither is
    looked at. *)
Theorem template_matching_stack_no_slices
    {F : Type} {FO : FloatOps F} {CV : Cv2 F} {PE : PyEval}
    (data template : ndarray F) (stackAxisID : value) (n : Z)
    (method : string) (subpixel : bool) :
  tuple_getitem (shape data) stackAxisID = Ok n -> n <= 0 ->
  template_matching_stack data template stackAxisID method subpixel = Ok [].
Proof.
  intros Hn Hle. unfold template_matching_stack. rewrite Hn. simpl.
  by rewrite seqZ_nil.
Qed.

(** X6, an instance: no slices, a template larger than the slices, and a
    method string that is no method. *)
Lemma template_matching_stack_no_slices_witness :
  template_matching_stack Ex2.no_slices Ex.templ_3x1 (PInt 0) "no_method" true
  = Ok [].
Proof.
  apply (template_matching_stack_no_slices Ex2.no_slices Ex.templ_3x1 (PInt 0) 0);
    [reflexivity | lia].
Defined.

(** X7.  No partial results: if the slices before index [i] are matched and
    slice [i] raises, the stack computation raises that exception, and the
    displacements found before are not returned. *)
Theorem template_matching_stack_first_failure
    {F : Type} {FO : FloatOps F} {CV : Cv2 F} {PE : PyEval}
    (data template : ndarray F) (stackAxisID : value) (n i : Z)
    (method : string) (subpixel : bool) (e : exn) :
  tuple_getitem (shape data) stackAxisID = Ok n -> 0 <= i < n ->
  (forall j, 0 <= j < i ->
     is_ok (slice_drift data template stackAxisID method subpixel j) = true) ->
  slice_drift data template stackAxisID method subpixel i = Raise e ->
  template_matching_stack data template stackAxisID method subpixel = Raise e.
Proof.
  intros Hn Hi Hbefore Hfail. unfold template_matching_stack. rewrite Hn. simpl.
  replace n with (i + (n - i)) by lia.
  rewrite seqZ_app by lia. rewrite (seqZ_cons (0 + i)) by lia.
  apply stack_loop_Raise; [|done].
  apply Forall_forall. intros j Hj%elem_of_seqZ. apply Hbefore. lia.
Qed.

(** X7, an instance: with refinement, slice 0 of [Ex2.stack_rev] is matched
    (the pixel 4 is at (0, 0)) and slice 1 raises (it is in the last row). *)
Lemma template_matching_stack_first_failure_witness :
  template_matching_stack Ex2.stack_rev Ex.pixel4 (PInt 0) "cv.TM_SQDIFF" true
  = Raise IndexError.
Proof.
  apply (template_matching_stack_first_failure Ex2.stack_rev Ex.pixel4 (PInt 0) 2 1).
  - reflexivity.
  - lia.
  - intros j Hj. assert (j = 0) as -> by lia. reflexivity.
  - reflexivity.
Defined.

(** X8.  For a well-formed 3-D stack and a stack axis among 0, 1, 2, taking
    the slices never fails: an exception of the stack computation is the
    exception of [template_matching] on one of the slices. *)
Theorem template_matching_stack_failure_is_a_slice
    {F : Type} {FO : FloatOps F} {CV : Cv2 F} {PE : PyEval}
    (data template : ndarray F) (n0 n1 n2 k : Z)
    (method : string) (subpixel : bool) (e : exn) :
  wf data -> shape data = [n0; n1; n2] -> 0 <= k <= 2 ->
  template_matching_stack data template (PInt k) method subpixel = Raise e ->
  exists i slice_,
    0 <= i < axis_len n0 n1 n2 k /\
    take_axis data k i = Ok slice_ /\
    template_matching slice_ template method subpixel = Raise e.
Proof.
  intros Hwf Hs Hk. unfold template_matching_stack.
  rewrite Hs, tuple_getitem_axis by done. simpl.
  intros (i & Hi%elem_of_seqZ & Hfail)%stack_loop_Raise_inv.
  destruct (take_axis_Ok data n0 n1 n2 k i Hwf Hs Hk) as (sl & Hsl & _).
  { unfold axis_len in Hi. by repeat destruct (bool_decide _). }
  exists i, sl. split; [lia|]. split; [done|].
  unfold slice_drift, stack_slice in Hfail.
  replace (insert_pos 2 k) with k in Hfail
    by (unfold insert_pos; rewrite bool_decide_false by lia; lia).
  by rewrite Hsl in Hfail.
Qed.

(** X8, an instance: the 3 x 1 template on the slices of [Ex.stack2]. *)
Lemma template_matching_stack_failure_is_a_slice_witness :
  exists i slice_,
    0 <= i < axis_len 2 2 2 0 /\
    take_axis Ex.stack2 0 i = Ok slice_ /\
    template_matching slice_ Ex.templ_3x1 "cv.TM_SQDIFF" false = Raise CvError.
Proof.
  apply (template_matching_stack_failure_is_a_slice Ex.stack2 Ex.templ_3x1
           2 2 2 0 "cv.TM_SQDIFF" false CvError).
  - split; [repeat constructor; lia | reflexivity].
  - reflexivity.
  - lia.
  - reflexivity.
Defined.

(** X9.  The stack axis -1 does not select the last axis: the number of
    slices is read from the last axis, but [list.insert(-1, i)] puts the
    index before the last subscript, on axis 1.  So for a well-formed stack
    with fewer entries along axis 1 than along axis 2 the computation never
    returns a drift series. *)
Theorem template_matching_stack_minus_one
    {F : Type} {FO : FloatOps F} {CV : Cv2 F} {PE : PyEval}
    (data template : ndarray F) (n0 n1 n2 : Z)
    (method : string) (subpixel : bool) :
  wf data -> shape data = [n0; n1; n2] -> n1 < n2 ->
  is_ok (template_matching_stack data template (PInt (-1)) method subpixel)
  = false.
Proof.
  intros [Hnn _] Hs Hlt.
  destruct (template_matching_stack data template (PInt (-1)) method subpixel)
    as [ds|e] eqn:Hds; [|done]. exfalso.
  apply template_matching_stack_Ok in Hds as (n & Hn & Hall).
  rewrite Hs in Hn, Hnn. injection Hn as <-.
  assert (0 <= n1) as Hn1.
  { inversion Hnn as [|? ? ? Hnn1]; by inversion Hnn1. }
  assert (Hi : seqZ 0 n2 !! Z.to_nat n1 = Some n1).
  { rewrite lookup_seqZ_lt by lia. f_equal. lia. }
  destruct (Forall2_lookup_l _ _ _ _ _ Hall Hi) as (d & _ & Hd).
  apply bind_Ok_inv in Hd as (sl & Hsl & _).
  unfold stack_slice, take_axis in Hsl. rewrite Hs in Hsl. simpl in Hsl.
  rewrite norm_index_out in Hsl by lia. done.
Qed.

(** X9, an instance: a stack of shape (1, 1, 2). *)
Lemma template_matching_stack_minus_one_witness :
  is_ok (template_matching_stack Ex2.pair Ex.pixel4 (PInt (-1)) "cv.TM_SQDIFF" false)
  = false.
Proof.
  apply (template_matching_stack_minus_one Ex2.pair Ex.pixel4 1 1 2).
  - split; [repeat constructor; lia | reflexivity].
  - reflexivity.
  - lia.
Defined.

(** ** The guessed template *)

(** X10.  For an axis of extent [dim >= 0] the two bounds of the guessed
    template are ordered and lie on the axis, they are about a fifth of the
    axis apart, and they coincide exactly for the extents 0, 1 and 3. *)
Theorem template_limits_bounds (dim : Z) :
  0 <= dim ->
  0 <= (template_limits dim).1 <= (template_limits dim).2 /\
  (template_limits dim).2 <= dim /\
  dim - 4 <= 5 * ((template_limits dim).2 - (template_limits dim).1) <= dim + 4 /\
  ((template_limits dim).1 = (template_limits dim).2
   <-> dim = 0 \/ dim = 1 \/ dim = 3).
Proof.
  intros Hdim. unfold template_limits. simpl.
  Z.to_euclidean_division_equations. lia.
Qed.

(** X10, an instance: an axis of 64 pixels gives the bounds 25 and 38. *)
Lemma template_limits_bounds_witness :
  template_limits 64 = (25, 38) /\
  0 <= (template_limits 64).1 <= (template_limits 64).2 /\
  (template_limits 64).2 <= 64.
Proof.
  split; [reflexivity|].
  destruct (template_limits_bounds 64 ltac:(lia)) as (H1 & H2 & _).
  split; assumption.
Defined.

(** ** The constructor without usable data *)

(** X12.  Without data (the default), or with data that is false in a
    condition, the constructor sets no attribute and fails with
    AttributeError when it reads [self.data]. *)
Theorem Drift_init_without_data
    {DS F : Type} {FO : FloatOps F} {CV : Cv2 F} {PE : PyEval}
    {DO : DataSetOps DS F}
    (data template : option DS) (stackAxisID xAxisID yAxisID : value)
    (subpixel : bool) (method : string) :
  data = None \/ (exists d, data = Some d /\ ds_truth d = false) ->
  Drift_init data template stackAxisID xAxisID yAxisID subpixel method
  = Raise AttributeError.
Proof.
  intros [-> | (d & -> & Hd)]; unfold Drift_init, init_attributes; [done|].
  by rewrite Hd.
Qed.

(** X12, an instance: the constructor called without arguments. *)
Lemma Drift_init_without_data_witness :
  Drift_init (DS := Toy.dataset) (F := sym) None None PNone PNone PNone
    true "cv.TM_CCOEFF_NORMED"
  = Raise AttributeError.
Proof.
  apply (Drift_init_without_data (DS := Toy.dataset) (F := sym)
           None None PNone PNone PNone true "cv.TM_CCOEFF_NORMED").
  by left.
Defined.

(** X13.  Data that is not a [DataSet] instance (a region of interest, for
    one) is refused: once its three axes are found, [extract_3Ddata] fails
    its assertion, although the two template routines accept a region of
    interest. *)
Theorem Drift_init_data_not_DataSet
    {DS F : Type} {FO : FloatOps F} {CV : Cv2 F} {PE : PyEval}
    {DO : DataSetOps DS F}
    (d : DS) (template : option DS) (stackAxisID xAxisID yAxisID : value)
    (subpixel : bool) (method : string) (ks kx ky : Z) :
  ds_truth d = true -> ds_is_DataSet d = false ->
  get_axis_index d (axis_or stackAxisID "delay") = Ok ks ->
  get_axis_index d (axis_or xAxisID "x") = Ok kx ->
  get_axis_index d (axis_or yAxisID "y") = Ok ky ->
  Drift_init (Some d) template stackAxisID xAxisID yAxisID subpixel method
  = Raise AssertionError.
Proof.
  intros Ht Hd Hs Hx Hy. unfold Drift_init, init_attributes.
  rewrite Ht, Hs, Hx, Hy. simpl. unfold extract_3Ddata. by rewrite Hd.
Qed.

(** X13, an instance: the frames held as a region of interest. *)
Lemma Drift_init_data_not_DataSet_witness :
  Drift_init (DO := toy_roi_ops) (Some Toy.frames) (Some Toy.patch)
    (PInt 0) PNone PNone true "cv.TM_CCOEFF_NORMED"
  = Raise AssertionError.
Proof.
  apply (Drift_init_data_not_DataSet (DO := toy_roi_ops) Toy.frames
           (Some Toy.patch) (PInt 0) PNone PNone true "cv.TM_CCOEFF_NORMED"
           0 1 2); reflexivity.
Defined.
